(** * simple_server.py: a shallow embedding and its properties

    The program is one [BaseHTTPRequestHandler] subclass, [SimpleHandler],
    with a GET responder and a logging hook, and [run_server], which binds
    the listening socket, prints two lines and serves forever.

    The embedding has three layers:
    - [Py]: the Python values and builtins the program uses (text as a
      sequence of code points, [str.encode], [str(int)], the [%] operator,
      [datetime] and [strftime]);
    - [Runtime]: the process state, the state-and-exception monad the
      methods run in, and the calls of [http.server] the handler makes;
    - [SimpleServer]: the code of simple_server.py itself. *)

From Stdlib.Strings Require Import Ascii String Byte.
From Stdlib Require Import List NArith ZArith Lia Bool.
Import ListNotations.

Open Scope N_scope.

(* ================================================================== *)
(** * Python values and builtins *)

Module Py.

(** A Python [str] is a sequence of code points.  [chr] gives any of
    0 .. 0x10FFFF, the surrogates U+D800 .. U+DFFF included. *)
Definition str := list N.

(** The text of an ASCII literal of the source. *)
Definition lit (s : string) : str := map N_of_ascii (list_ascii_of_string s).

(** The double quote and the line feed, which the literals below cannot
    hold themselves. *)
Definition dq : str := [34].
Definition nl : str := [10].

(** [a == b] on text. *)
Fixpoint str_eqb (a b : str) : bool :=
  match a, b with
  | [], [] => true
  | x :: a', y :: b' => (x =? y) && str_eqb a' b'
  | _, _ => false
  end.

(** [s.startswith(prefix)]. *)
Fixpoint startswith (prefix s : str) : bool :=
  match prefix, s with
  | [], _ => true
  | x :: prefix', y :: s' => (x =? y) && startswith prefix' s'
  | _ :: _, [] => false
  end.

(** [s.lstrip(chars)] and [s.rstrip(chars)]: the leading, or the trailing,
    characters that occur in [chars] are dropped. *)
Fixpoint lstrip (chars s : str) : str :=
  match s with
  | [] => []
  | x :: s' => if existsb (N.eqb x) chars then lstrip chars s' else s
  end.

Definition rstrip (chars s : str) : str := rev (lstrip chars (rev s)).

(** Lines, each closed by a line feed. *)
Definition unlines (ls : list str) : str := concat (map (fun l => l ++ nl) ls).

(** [str(raw, 'iso-8859-1')]: one code point per byte.  This is how the
    hosting runtime turns a request line into text. *)
Definition latin1_decode (raw : list byte) : str := map Byte.to_N raw.

(** ** [str.encode()]: UTF-8, strict *)

Definition is_surrogate (c : N) : bool := (0xD800 <=? c) && (c <=? 0xDFFF).

Definition octet (n : N) : byte :=
  match Byte.of_N (N.land n 0xFF) with
  | Some b => b
  | None => x00
  end.

(** The continuation byte holding bits [6k+5 .. 6k] of [c]. *)
Definition cont (c : N) (k : N) : byte :=
  octet (N.lor 0x80 (N.land (N.shiftr c (6 * k)) 0x3F)).

(** One code point; [None] is [UnicodeEncodeError] (surrogates not
    allowed). *)
Definition utf8_char (c : N) : option (list byte) :=
  if c <? 0x80 then Some [octet c]
  else if c <? 0x800 then
    Some [octet (N.lor 0xC0 (N.shiftr c 6)); cont c 0]
  else if is_surrogate c then None
  else if c <? 0x10000 then
    Some [octet (N.lor 0xE0 (N.shiftr c 12)); cont c 1; cont c 0]
  else if c <? 0x110000 then
    Some [octet (N.lor 0xF0 (N.shiftr c 18)); cont c 2; cont c 1; cont c 0]
  else None.

Fixpoint encode (s : str) : option (list byte) :=
  match s with
  | [] => Some []
  | c :: rest =>
      match utf8_char c with
      | None => None
      | Some bs =>
          match encode rest with
          | None => None
          | Some bs' => Some (bs ++ bs')
          end
      end
  end.

(** The text UTF-8 can encode: every code point is a Unicode scalar value. *)
Definition scalar (c : N) : bool := (c <? 0x110000) && negb (is_surrogate c).
Definition encodable (s : str) : bool := forallb scalar s.

(** ** [str(n)] for integers *)

Definition digit (n : N) : N := 48 + n mod 10.

Fixpoint decimal_loop (fuel : nat) (n : N) (acc : str) : str :=
  match fuel with
  | O => acc
  | S fuel' =>
      if n <? 10 then digit n :: acc
      else decimal_loop fuel' (n / 10) (digit n :: acc)
  end.

(** A number below [2^k] has at most [k] decimal digits, so the fuel never
    runs out. *)
Definition decimal (n : N) : str :=
  decimal_loop (S (N.to_nat (N.log2 n))) n [].

Definition str_of_int (z : Z) : str :=
  match z with
  | Zneg p => 45 :: decimal (Npos p)
  | _ => decimal (Z.to_N z)
  end.

(** [s.zfill(w)] on a string of digits. *)
Definition zfill (w : nat) (s : str) : str :=
  repeat 48 (w - length s) ++ s.

(** ** Exceptions and results *)

Inductive exn : Type :=
| UnicodeEncodeError
| TypeError (why : string)
| ValueError (why : string)
| OSError
| OverflowError
| Unmodelled (what : string).

Inductive result (A : Type) : Type :=
| Ok (a : A)
| Raise (e : exn).
Arguments Ok {A} a.
Arguments Raise {A} e.

Definition result_map {A B} (f : A -> B) (r : result A) : result B :=
  match r with
  | Ok a => Ok (f a)
  | Raise e => Raise e
  end.

(** ** The [%] operator, on the conversions the runtime's log calls use *)

Inductive value : Type :=
| VStr (s : str)
| VInt (z : Z).

Definition str_of (v : value) : str :=
  match v with
  | VStr s => s
  | VInt z => str_of_int z
  end.

(** [format % args] for a tuple [args]: [%s], [%d] and [%%].  A conversion
    outside this fragment ends in [Unmodelled]; the other errors are
    Python's. *)
Fixpoint percent (format : str) (args : list value) : result str :=
  match format with
  | [] =>
      match args with
      | [] => Ok []
      | _ :: _ =>
          Raise (TypeError "not all arguments converted during string formatting")
      end
  | 37 :: [] => Raise (ValueError "incomplete format")
  | 37 :: c :: rest =>
      if c =? 37 then result_map (cons 37) (percent rest args)
      else if c =? 115 then
        match args with
        | [] => Raise (TypeError "not enough arguments for format string")
        | v :: args' => result_map (app (str_of v)) (percent rest args')
        end
      else if c =? 100 then
        match args with
        | [] => Raise (TypeError "not enough arguments for format string")
        | VInt z :: args' => result_map (app (str_of_int z)) (percent rest args')
        | VStr _ :: _ =>
            Raise (TypeError "%d format: a real number is required, not str")
        end
      else Raise (Unmodelled "conversion")
  | c :: rest => result_map (cons c) (percent rest args)
  end.

(** ** [datetime] *)

Record datetime : Type := {
  year : N;
  month : N;
  day : N;
  hour : N;
  minute : N;
  second : N;
  microsecond : N;
  fold : bool
}.

Definition is_leap (y : N) : bool :=
  (y mod 4 =? 0) && (negb (y mod 100 =? 0) || (y mod 400 =? 0)).

Definition days_in_month (y m : N) : N :=
  if m =? 2 then (if is_leap y then 29 else 28)
  else if (m =? 4) || (m =? 6) || (m =? 9) || (m =? 11) then 30
  else 31.

(** The ranges the [datetime] constructor enforces. *)
Definition valid_datetime (d : datetime) : bool :=
  (1 <=? year d) && (year d <=? 9999) &&
  (1 <=? month d) && (month d <=? 12) &&
  (1 <=? day d) && (day d <=? days_in_month (year d) (month d)) &&
  (hour d <? 24) && (minute d <? 60) && (second d <? 60) &&
  (microsecond d <? 1000000).

(** Two readings show the same clock second. *)
Definition same_second (a b : datetime) : Prop :=
  year a = year b /\ month a = month b /\ day a = day b /\
  hour a = hour b /\ minute a = minute b /\ second a = second b.

(** One directive of [strftime]: [%Y %m %d %H %M %S] and [%%]; any other
    letter is left as written.  [%Y] is the year in four digits, as the
    Python documentation gives it; a C library that does not pad differs
    only before the year 1000, which no wall clock reads. *)
Definition directive (c : N) (d : datetime) : str :=
  if c =? 89 then zfill 4 (decimal (year d))
  else if c =? 109 then zfill 2 (decimal (month d))
  else if c =? 100 then zfill 2 (decimal (day d))
  else if c =? 72 then zfill 2 (decimal (hour d))
  else if c =? 77 then zfill 2 (decimal (minute d))
  else if c =? 83 then zfill 2 (decimal (second d))
  else if c =? 37 then [37]
  else [37; c].

Fixpoint strftime_loop (format : str) (d : datetime) : str :=
  match format with
  | [] => []
  | 37 :: c :: rest => directive c d ++ strftime_loop rest d
  | c :: rest => c :: strftime_loop rest d
  end.

Definition strftime (d : datetime) (format : str) : str :=
  strftime_loop format d.

(** ** Reading a page back

    The layout the specification names, [YYYY-MM-DD HH:MM:SS], as a reader
    of its six numbers; and containment of one sequence in another. *)

Definition is_digit (c : N) : bool := (48 <=? c) && (c <=? 57).

Definition number (ds : str) : option N :=
  fold_left
    (fun acc c =>
       match acc with
       | Some n => if is_digit c then Some (10 * n + (c - 48)) else None
       | None => None
       end)
    ds (Some 0).

Definition field (s : str) (from len : nat) : str := firstn len (skipn from s).

Definition parse_timestamp (s : str) : option (N * N * N * N * N * N) :=
  if Nat.eqb (length s) 19
     && str_eqb (field s 4 1) [45] && str_eqb (field s 7 1) [45]
     && str_eqb (field s 10 1) [32]
     && str_eqb (field s 13 1) [58] && str_eqb (field s 16 1) [58]
  then
    match number (field s 0 4), number (field s 5 2), number (field s 8 2),
          number (field s 11 2), number (field s 14 2), number (field s 17 2)
    with
    | Some y, Some m, Some d, Some hh, Some mm, Some ss =>
        Some (y, m, d, hh, mm, ss)
    | _, _, _, _, _, _ => None
    end
  else None.

(** [needle] occurs in [hay] as a contiguous run. *)
Definition occurs_in {A} (needle hay : list A) : Prop :=
  exists before after, hay = before ++ needle ++ after.

(** The bytes of an ASCII literal. *)
Definition bytes_lit (s : string) : list byte := list_byte_of_string s.

End Py.

Import Py.

(* ================================================================== *)
(** * The hosting runtime: [http.server] and [socketserver] *)

Module Runtime.

(** The [HTTPServer] object.  The address it listens on is the only
    configuration the process has. *)
Record server : Type := {
  server_address : str * Z
}.

(** What has been handed to the runtime for the request being served: the
    code given to [send_response], the headers given to [send_header], in
    order, whether [end_headers] was called, and the bytes written to
    [wfile].  What the runtime makes of it on the wire is not part of it:
    the status line, the [Server] and [Date] headers it adds on its own
    account, and that it sends the body alone when the request line names
    no protocol version (HTTP/0.9). *)
Record response : Type := {
  status : option N;
  sent_headers : list (str * str);
  headers_ended : bool;
  body : list byte
}.

Definition no_response : response :=
  {| status := None; sent_headers := []; headers_ended := false; body := [] |}.

(** What the process takes from its surroundings: the local wall clock, as
    [datetime.now()] reads it (the reading of the [n]-th call), the ports
    the host lets it bind, and the runtime's error page (its
    [error_message_format], filled in and encoded). *)
Record platform : Type := {
  wall : nat -> datetime;
  port_free : Z -> bool;
  error_page : N -> str -> list byte
}.

(** The process: the clock reads made so far, the lines printed on standard
    output, one per [print] call, the [HTTPServer] object once it exists, and
    the response of the request in progress. *)
Record state : Type := {
  reads : nat;
  stdout : list str;
  httpd : option server;
  reply : response
}.

Definition boot : state :=
  {| reads := 0; stdout := []; httpd := None; reply := no_response |}.

(** A request [parse_request] has accepted, as the runtime has read and
    split it, before decoding: the line as it came, with its line end, its
    words, the headers and the body.  What [parse_request] refuses (a line
    without words or with too many, a bad or unsupported version, a method
    other than GET without a version, too long a line, too many headers) it
    answers itself or drops; such a line reaches no responder and is not
    modelled. *)
Record request : Type := {
  peer : str * N;
  raw_requestline : list byte;
  raw_command : list byte;
  raw_path : list byte;
  raw_version : list byte;
  raw_headers : list (list byte * list byte);
  raw_body : list byte
}.

(** The handler instance, [self]: the runtime makes one per connection and
    fills in these attributes before it dispatches. *)
Record handler : Type := {
  client_address : str * N;
  command : str;
  path : str;
  requestline : str;
  request_version : str;
  headers : list (str * str);
  rfile : list byte
}.

(** [parse_request] decodes the request line as ISO-8859-1 and strips its
    line end; a path that starts with two slashes is reduced to a single
    leading slash. *)
Definition handler_of (r : request) : handler :=
  let target := latin1_decode (raw_path r) in
  {| client_address := peer r;
     command := latin1_decode (raw_command r);
     path := if startswith (lit "//") target
             then lit "/" ++ lstrip (lit "/") target
             else target;
     requestline := rstrip [13; 10] (latin1_decode (raw_requestline r));
     request_version := latin1_decode (raw_version r);
     headers :=
       map (fun kv => (latin1_decode (fst kv), latin1_decode (snd kv)))
           (raw_headers r);
     rfile := raw_body r |}.

(** ** The monad: platform reader, process state, exceptions *)

Definition M (A : Type) : Type := platform -> state -> result A * state.

Definition ret {A} (a : A) : M A := fun _ s => (Ok a, s).

Definition bind {A B} (m : M A) (k : A -> M B) : M B :=
  fun h s =>
    match m h s with
    | (Ok a, s') => k a h s'
    | (Raise e, s') => (Raise e, s')
    end.

Definition raise {A} (e : exn) : M A := fun _ s => (Raise e, s).

Definition lift {A} (r : result A) : M A := fun _ s => (r, s).

Declare Scope py_scope.
Delimit Scope py_scope with py.
Notation "x <- m ;; k" := (bind m (fun x => k))
  (at level 61, m at next level, right associativity) : py_scope.
Notation "m ;; k" := (bind m (fun _ => k))
  (at level 61, right associativity) : py_scope.
Open Scope py_scope.

(** ** Builtins with an effect *)

Definition set_reply (r : response) (s : state) : state :=
  {| reads := reads s; stdout := stdout s; httpd := httpd s; reply := r |}.

(** [datetime.now()]: the next reading of the wall clock. *)
Definition datetime_now : M datetime :=
  fun h s =>
    (Ok (wall h (reads s)),
     {| reads := S (reads s); stdout := stdout s; httpd := httpd s;
        reply := reply s |}).

(** [print(line)]. *)
Definition print (line : str) : M unit :=
  fun _ s =>
    (Ok tt,
     {| reads := reads s; stdout := stdout s ++ [line]; httpd := httpd s;
        reply := reply s |}).

(** [text.encode()]. *)
Definition str_encode (text : str) : M (list byte) :=
  match encode text with
  | Some data => ret data
  | None => raise UnicodeEncodeError
  end.

(** [repr] of a [str] whose code points are below U+0100, which is all a
    decoded request line holds (higher ones are copied). *)
Definition hex_digit (n : N) : N := if n <? 10 then 48 + n else 87 + n.

Definition printable (c : N) : bool :=
  if c <? 0x20 then false
  else if c <? 0x7F then true
  else if c <? 0xA1 then false
  else negb (c =? 0xAD).

Definition repr_char (quote c : N) : str :=
  if (c =? quote) || (c =? 92) then [92; c]
  else if c =? 9 then [92; 116]
  else if c =? 10 then [92; 110]
  else if c =? 13 then [92; 114]
  else if printable c then [c]
  else [92; 120; hex_digit (c / 16); hex_digit (c mod 16)].

Definition repr (s : str) : str :=
  let quote :=
    if existsb (N.eqb 39) s && negb (existsb (N.eqb 34) s) then 34 else 39 in
  [quote] ++ flat_map (repr_char quote) s ++ [quote].

(** ** [BaseHTTPRequestHandler] *)

(** The logging hook a handler class provides ([log_message]); every log
    call of the runtime goes through it. *)
Definition hook : Type := handler -> str -> list value -> M unit.

(** A handler class, as far as the runtime sees it: the hook and the
    methods [getattr(self, name)] finds. *)
Record handler_class : Type := {
  log_message_of : hook;
  getattr : str -> option (handler -> M unit)
}.

Definition log_request (log : hook) (self : handler) (code : N) : M unit :=
  log self (dq ++ lit "%s" ++ dq ++ lit " %s %s")
      [VStr (requestline self); VStr (decimal code); VStr (lit "-")].

Definition log_error (log : hook) (self : handler) (format : str)
    (args : list value) : M unit :=
  log self format args.

(** [send_response(code)]: "add the response header to the headers buffer
    and log the response code". *)
Definition send_response (log : hook) (self : handler) (code : N) : M unit :=
  log_request log self code ;;
  fun _ s =>
    (Ok tt,
     set_reply {| status := Some code;
                  sent_headers := sent_headers (reply s);
                  headers_ended := headers_ended (reply s);
                  body := body (reply s) |} s).

Definition send_header (self : handler) (keyword value : str) : M unit :=
  fun _ s =>
    (Ok tt,
     set_reply {| status := status (reply s);
                  sent_headers := sent_headers (reply s) ++ [(keyword, value)];
                  headers_ended := headers_ended (reply s);
                  body := body (reply s) |} s).

Definition end_headers (self : handler) : M unit :=
  fun _ s =>
    (Ok tt,
     set_reply {| status := status (reply s);
                  sent_headers := sent_headers (reply s);
                  headers_ended := true;
                  body := body (reply s) |} s).

(** [self.wfile.write(data)]. *)
Definition wfile_write (self : handler) (data : list byte) : M unit :=
  fun _ s =>
    (Ok tt,
     set_reply {| status := status (reply s);
                  sent_headers := sent_headers (reply s);
                  headers_ended := headers_ended (reply s);
                  body := body (reply s) ++ data |} s).

(** [send_error(code, message)]: "send and log an error reply".  It logs
    the error, then sends the response, which logs the request. *)
Definition send_error (log : hook) (self : handler) (code : N)
    (message : str) : M unit :=
  log_error log self (lit "code %d, message %s")
            [VInt (Z.of_N code); VStr message] ;;
  send_response log self code ;;
  send_header self (lit "Connection") (lit "close") ;;
  page <- (if (200 <=? code)
              && negb ((code =? 204) || (code =? 205) || (code =? 304))
           then
             (fun h s => (Ok (error_page h code message), s)) : M (list byte)
           else ret []) ;;
  (if (200 <=? code)
      && negb ((code =? 204) || (code =? 205) || (code =? 304))
   then
     send_header self (lit "Content-Type") (lit "text/html;charset=utf-8") ;;
     send_header self (lit "Content-Length")
                 (decimal (N.of_nat (length page)))
   else ret tt) ;;
  end_headers self ;;
  if negb (str_eqb (command self) (lit "HEAD"))
     && negb (Nat.eqb (length page) 0)
  then wfile_write self page
  else ret tt.

(** [handle_one_request], once the request is parsed: the method named
    [do_] + command, or the 501 reply. *)
Definition handle_one_request (cls : handler_class) (self : handler)
    : M unit :=
  let mname := lit "do_" ++ command self in
  match getattr cls mname with
  | None =>
      send_error (log_message_of cls) self 501
                 (lit "Unsupported method (" ++ repr (command self) ++ lit ")")
  | Some method => method self
  end.

(** One connection with a request [parse_request] accepted: a fresh
    handler, a fresh response.  An exception of the handler ends the
    request ([handle_error]), not the server. *)
Definition finish_request (cls : handler_class) (r : request) : M response :=
  fun h s =>
    let (_, s') := handle_one_request cls (handler_of r) h
                                      (set_reply no_response s) in
    (Ok (reply s'), s').

(** [HTTPServer(address, cls)]: bind and listen. *)
Definition HTTPServer (address : str * Z) : M unit :=
  fun h s =>
    let port := snd address in
    if ((port <? 0) || (65535 <? port))%Z then (Raise OverflowError, s)
    else if port_free h port then
      (Ok tt,
       {| reads := reads s; stdout := stdout s;
          httpd := Some {| server_address := address |};
          reply := reply s |})
    else (Raise OSError, s).

(** [serve_forever], over the requests that arrive before the process is
    interrupted. *)
Fixpoint serve_forever (cls : handler_class) (incoming : list request)
    : M (list response) :=
  match incoming with
  | [] => ret []
  | r :: rest =>
      a <- finish_request cls r ;;
      answers <- serve_forever cls rest ;;
      ret (a :: answers)
  end.

End Runtime.

Import Runtime.
Open Scope py_scope.

(* ================================================================== *)
(** * simple_server.py *)

Module SimpleServer.

Definition timestamp_format : str := lit "%Y-%m-%d %H:%M:%S".

(** The three literal parts of the page template. *)
Definition page_head : str :=
  unlines
    [ [];
      lit "        <!DOCTYPE html>";
      lit "        <html>";
      lit "        <head>";
      lit "            <title>Simple HTTP Server</title>";
      lit "            <style>";
      lit "                body {";
      lit "                    font-family: Arial, sans-serif;";
      lit "                    max-width: 800px;";
      lit "                    margin: 50px auto;";
      lit "                    padding: 20px;";
      lit "                    background-color: #f0f0f0;";
      lit "                }";
      lit "                .container {";
      lit "                    background-color: white;";
      lit "                    padding: 30px;";
      lit "                    border-radius: 10px;";
      lit "                    box-shadow: 0 2px 10px rgba(0,0,0,0.1);";
      lit "                }";
      lit "                h1 { color: #333; }";
      lit "                .info { color: #666; margin-top: 20px; }";
      lit "                .emoji { font-size: 3em; }";
      lit "            </style>";
      lit "        </head>";
      lit "        <body>";
      lit "            <div class=" ++ dq ++ lit "container" ++ dq ++ lit ">";
      lit "                <div class=" ++ dq ++ lit "emoji" ++ dq ++ lit ">"
        ++ [0x1F44B] ++ lit "</div>";
      lit "                <h1>Hello from Simple HTTP Server!</h1>";
      lit "                <p>This is a basic Python HTTP server.</p>";
      lit "                <div class=" ++ dq ++ lit "info" ++ dq ++ lit ">" ]
  ++ lit "                    <p><strong>Path:</strong> ".

Definition page_mid : str :=
  unlines
    [ lit "</p>" ]
  ++ lit "                    <p><strong>Time:</strong> ".

Definition page_tail : str :=
  unlines
    [ lit "</p>";
      lit "                </div>";
      lit "            </div>";
      lit "        </body>";
      lit "        </html>" ]
  ++ lit "        ".

(** The f-string of [do_GET]. *)
Definition render (path time : str) : str :=
  page_head ++ path ++ page_mid ++ time ++ page_tail.

(** [SimpleHandler.log_message]. *)
Definition log_message (self : handler) (format : str) (args : list value)
    : M unit :=
  now <- datetime_now ;;
  message <- lift (percent format args) ;;
  print (lit "[" ++ strftime now timestamp_format ++ lit "] " ++ message).

(** [SimpleHandler.do_GET]. *)
Definition do_GET (self : handler) : M unit :=
  send_response log_message self 200 ;;
  send_header self (lit "Content-type") (lit "text/html") ;;
  end_headers self ;;
  now <- datetime_now ;;
  let html := render (path self) (strftime now timestamp_format) in
  data <- str_encode html ;;
  wfile_write self data.

(** The class: [log_message] overridden, [do_GET] the only responder. *)
Definition SimpleHandler : handler_class :=
  {| log_message_of := log_message;
     getattr := fun name =>
       if str_eqb name (lit "do_GET") then Some do_GET
       else None |}.

(** [run_server(port)]; [incoming] is what [serve_forever] will accept. *)
Definition run_server (port : Z) (incoming : list request)
    : M (list response) :=
  let server_address := ([], port) in
  HTTPServer server_address ;;
  print (lit "Server running on http://localhost:" ++ str_of_int port) ;;
  print (lit "Press Ctrl+C to stop the server") ;;
  serve_forever SimpleHandler incoming.

(** The default of [run_server]'s parameter. *)
Definition default_port : Z := 8080.

(** The script's entry point: [run_server()], whatever the command line. *)
Definition main (argv : list str) (incoming : list request)
    : M (list response) :=
  run_server default_port incoming.

End SimpleServer.

Import SimpleServer.

(* ================================================================== *)
(** * Definitions used to state the properties *)

(** The timestamp of a page body: the nineteen bytes before the closing
    part of the template. *)
Definition body_timestamp (data : list byte) : list byte :=
  firstn 19 (skipn (length data - length page_tail - 19) data).

(** The text [strftime] gives for the program's format. *)
Abbreviation stamp d := (strftime d timestamp_format).

(** The line [log_request] has logged for a request line and a code. *)
Definition request_summary (line : str) (code : N) : str :=
  dq ++ line ++ dq ++ lit " " ++ decimal code ++ lit " -".

(** Two-digit and four-digit fields read back as the number printed. *)
Definition two_digits_ok (n : N) : bool :=
  match zfill 2 (decimal n) with
  | [a; b] =>
      match number [a; b] with
      | Some m => m =? n
      | None => false
      end
  | _ => false
  end.

Definition four_digits_ok (n : N) : bool :=
  match zfill 4 (decimal n) with
  | [a; b; c; d] =>
      match number [a; b; c; d] with
      | Some m => m =? n
      | None => false
      end
  | _ => false
  end.

(** [needle] occurs in [hay], decided. *)
Fixpoint starts_with (needle hay : list byte) : bool :=
  match needle, hay with
  | [], _ => true
  | x :: needle', y :: hay' => Byte.eqb x y && starts_with needle' hay'
  | _ :: _, [] => false
  end.

Fixpoint occurs_inb (needle hay : list byte) : bool :=
  starts_with needle hay ||
  match hay with
  | [] => false
  | _ :: hay' => occurs_inb needle hay'
  end.

(** ASCII text. *)
Definition ascii_text (s : str) : bool := forallb (fun c => c <? 128) s.

(** The line [log_message] prints at reading [t] for a message. *)
Definition log_line (t : datetime) (message : str) : str :=
  lit "[" ++ stamp t ++ lit "] " ++ message.

(** The bytes of a text that can be encoded. *)
Definition utf8 (s : str) : list byte :=
  match encode s with
  | Some data => data
  | None => []
  end.

(** The page for a path, rendered at reading [t], as a response. *)
Definition page_response (path : str) (t : datetime) : response :=
  {| status := Some 200;
     sent_headers := [(lit "Content-type", lit "text/html")];
     headers_ended := true;
     body := utf8 (render path (stamp t)) |}.

(** The state in which [run_server] enters [serve_forever]. *)
Definition started (port : Z) : state :=
  {| reads := 0;
     stdout := [lit "Server running on http://localhost:" ++ str_of_int port;
                lit "Press Ctrl+C to stop the server"];
     httpd := Some {| server_address := ([], port) |};
     reply := no_response |}.

(** ** Sample inputs *)

(** A clock that shows 2026-11-04 01:15 and advances one second per read,
    and one that stands still. *)
Definition ticking (n : nat) : datetime :=
  {| year := 2026; month := 11; day := 4; hour := 1; minute := 15;
     second := N.of_nat n mod 60; microsecond := 250000; fold := false |}.

Definition sample_host : platform :=
  {| wall := ticking; port_free := fun _ => true;
     error_page := fun _ _ => [] |}.

Definition frozen_host : platform :=
  {| wall := fun _ => ticking 0; port_free := fun _ => true;
     error_page := fun _ _ => [] |}.

(** The request [method target HTTP/1.1] from a local client. *)
Definition sample_request (method target : string) : request :=
  {| peer := (lit "127.0.0.1", 50000);
     raw_requestline :=
       bytes_lit method ++ bytes_lit " " ++ bytes_lit target
       ++ bytes_lit " HTTP/1.1" ++ [x0d; x0a];
     raw_command := bytes_lit method;
     raw_path := bytes_lit target;
     raw_version := bytes_lit "HTTP/1.1";
     raw_headers := [(bytes_lit "Host", bytes_lit "localhost:8080")];
     raw_body := [] |}.

(** A handler whose path is a lone surrogate, U+D800.  No request line
    decodes to it; the attribute can hold it all the same. *)
Definition surrogate_handler : handler :=
  {| client_address := (lit "127.0.0.1", 50000);
     command := lit "GET";
     path := [0xD800];
     requestline := lit "GET / HTTP/1.1";
     request_version := lit "HTTP/1.1";
     headers := [];
     rfile := [] |}.

(** ** Definitions for the further properties *)

(** An exception Python raises, as opposed to the mark of a conversion the
    model of [%] leaves out. *)
Definition python_error (e : exn) : bool :=
  match e with
  | Unmodelled _ => false
  | _ => true
  end.

(** The bytes of a request path outside ASCII. *)
Definition high_bytes (raw : list byte) : list byte :=
  filter (fun b => 128 <=? Byte.to_N b) raw.

Definition ascii_bytes (raw : list byte) : bool :=
  forallb (fun b => Byte.to_N b <? 128) raw.

(** Text a request line can decode to, and its characters outside ASCII. *)
Definition latin1_text (s : str) : bool := forallb (fun c => c <? 256) s.

Definition high_chars (s : str) : str := filter (fun c => 128 <=? c) s.

(** Reading the bytes of a decoded request path back from their UTF-8
    form: a byte below 0x80 stands for itself, a lead byte and its
    continuation for one byte from 0x80 up. *)
Fixpoint latin1_of_utf8 (data : list byte) : list byte :=
  match data with
  | [] => []
  | b :: rest =>
      if Byte.to_N b <? 128 then b :: latin1_of_utf8 rest
      else
        match rest with
        | [] => []
        | c :: rest' =>
            octet (N.lor (N.shiftl (N.land (Byte.to_N b) 3) 6)
                         (N.land (Byte.to_N c) 0x3F))
            :: latin1_of_utf8 rest'
        end
  end.

(* ================================================================== *)
(** * Properties of the builtins *)

(** A check that holds on [0 .. k-1] holds below [k]. *)
Lemma forall_below (P : N -> bool) (k : N) :
  forallb P (map N.of_nat (seq 0 (N.to_nat k))) = true ->
  forall n, n < k -> P n = true.
Proof.
  intros H n Hn.
  rewrite forallb_forall in H. apply H.
  apply in_map_iff. exists (N.to_nat n). split.
  - apply N2Nat.id.
  - apply in_seq. lia.
Qed.

Lemma two_digits (n : N) :
  n < 100 ->
  exists a b, zfill 2 (decimal n) = [a; b] /\ number [a; b] = Some n.
Proof.
  intros Hn.
  assert (H : two_digits_ok n = true).
  { apply (forall_below two_digits_ok 100); [vm_compute; reflexivity | exact Hn]. }
  unfold two_digits_ok in H.
  destruct (zfill 2 (decimal n)) as [|a [|b [|c l]]]; try discriminate.
  destruct (number [a; b]) as [m|] eqn:E; try discriminate.
  exists a, b. split; [reflexivity|].
  apply N.eqb_eq in H. now subst.
Qed.

Lemma four_digits (n : N) :
  n < 10000 ->
  exists a b c d,
    zfill 4 (decimal n) = [a; b; c; d] /\ number [a; b; c; d] = Some n.
Proof.
  intros Hn.
  assert (H : four_digits_ok n = true).
  { apply (forall_below four_digits_ok 10000); [vm_compute; reflexivity | exact Hn]. }
  unfold four_digits_ok in H.
  destruct (zfill 4 (decimal n)) as [|a [|b [|c [|d [|e l]]]]]; try discriminate.
  destruct (number [a; b; c; d]) as [m|] eqn:E; try discriminate.
  exists a, b, c, d. split; [reflexivity|].
  apply N.eqb_eq in H. now subst.
Qed.

(** The program's format, directive by directive. *)
Lemma stamp_fields (d : datetime) :
  stamp d =
    zfill 4 (decimal (year d)) ++ [45] ++ zfill 2 (decimal (month d)) ++ [45]
    ++ zfill 2 (decimal (day d)) ++ [32] ++ zfill 2 (decimal (hour d)) ++ [58]
    ++ zfill 2 (decimal (minute d)) ++ [58] ++ zfill 2 (decimal (second d)).
Proof.
  rewrite <- (app_nil_r (zfill 2 (decimal (second d)))).
  reflexivity.
Qed.

Lemma valid_datetime_ranges (d : datetime) :
  valid_datetime d = true ->
  year d < 10000 /\ month d < 100 /\ day d < 100 /\
  hour d < 100 /\ minute d < 100 /\ second d < 100.
Proof.
  unfold valid_datetime. intros H.
  repeat (apply andb_prop in H as [H ?]).
  assert (days_in_month (year d) (month d) <= 31).
  { unfold days_in_month.
    destruct (month d =? 2); [destruct (is_leap (year d)); lia|].
    destruct ((month d =? 4) || (month d =? 6) || (month d =? 9) || (month d =? 11)); lia. }
  repeat match goal with
         | H : (_ <=? _) = true |- _ => apply N.leb_le in H
         | H : (_ <? _) = true |- _ => apply N.ltb_lt in H
         end.
  lia.
Qed.

(** A valid reading is printed in the layout [YYYY-MM-DD HH:MM:SS], and the
    six numbers read back are its fields. *)
Lemma parse_stamp (d : datetime) :
  valid_datetime d = true ->
  parse_timestamp (stamp d) =
    Some (year d, month d, day d, hour d, minute d, second d).
Proof.
  intros V. apply valid_datetime_ranges in V.
  destruct V as (Hy & Hm & Hd & Hh & Hmi & Hs).
  rewrite stamp_fields.
  destruct (four_digits _ Hy) as (y1 & y2 & y3 & y4 & -> & Ey).
  destruct (two_digits _ Hm) as (m1 & m2 & -> & Em).
  destruct (two_digits _ Hd) as (d1 & d2 & -> & Ed).
  destruct (two_digits _ Hh) as (h1 & h2 & -> & Eh).
  destruct (two_digits _ Hmi) as (i1 & i2 & -> & Ei).
  destruct (two_digits _ Hs) as (s1 & s2 & -> & Es).
  unfold parse_timestamp. cbn [app length Nat.eqb field firstn skipn str_eqb N.eqb Pos.eqb andb].
  now rewrite Ey, Em, Ed, Eh, Ei, Es.
Qed.

Lemma stamp_length (d : datetime) :
  valid_datetime d = true -> length (stamp d) = 19%nat.
Proof.
  intros V. apply valid_datetime_ranges in V.
  destruct V as (Hy & Hm & Hd & Hh & Hmi & Hs).
  rewrite stamp_fields.
  destruct (four_digits _ Hy) as (y1 & y2 & y3 & y4 & -> & _).
  destruct (two_digits _ Hm) as (m1 & m2 & -> & _).
  destruct (two_digits _ Hd) as (d1 & d2 & -> & _).
  destruct (two_digits _ Hh) as (h1 & h2 & -> & _).
  destruct (two_digits _ Hmi) as (i1 & i2 & -> & _).
  destruct (two_digits _ Hs) as (s1 & s2 & -> & _).
  reflexivity.
Qed.

(** The text shows the clock second and nothing else of the reading. *)
Lemma stamp_same_second (a b : datetime) :
  same_second a b -> stamp a = stamp b.
Proof.
  intros (Hy & Hm & Hd & Hh & Hmi & Hs).
  rewrite !stamp_fields. now rewrite Hy, Hm, Hd, Hh, Hmi, Hs.
Qed.

Lemma stamp_injective (a b : datetime) :
  valid_datetime a = true -> valid_datetime b = true ->
  stamp a = stamp b -> same_second a b.
Proof.
  intros Va Vb E.
  apply parse_stamp in Va. apply parse_stamp in Vb.
  rewrite E in Va.
  assert (H : Some (year a, month a, day a, hour a, minute a, second a)
              = Some (year b, month b, day b, hour b, minute b, second b))
    by (rewrite <- Va, <- Vb; reflexivity).
  unfold same_second. inversion H. repeat split; assumption.
Qed.

(** ** [str(n)] *)

Lemma digit_is_digit (n : N) : is_digit (digit n) = true.
Proof.
  unfold is_digit, digit.
  assert (H : n mod 10 < 10) by (apply N.mod_lt; discriminate).
  revert H. generalize (n mod 10). intros m Hm.
  apply andb_true_intro; split; apply N.leb_le; lia.
Qed.

Lemma decimal_loop_digits (fuel : nat) :
  forall n acc,
    Forall (fun c => is_digit c = true) acc ->
    Forall (fun c => is_digit c = true) (decimal_loop fuel n acc).
Proof.
  induction fuel as [|fuel IH]; intros n acc Hacc; simpl.
  - exact Hacc.
  - destruct (n <? 10).
    + constructor; [apply digit_is_digit | exact Hacc].
    + apply IH. constructor; [apply digit_is_digit | exact Hacc].
Qed.

Lemma decimal_digits (n : N) : Forall (fun c => is_digit c = true) (decimal n).
Proof. unfold decimal. apply decimal_loop_digits. constructor. Qed.





Lemma is_digit_ascii (c : N) : is_digit c = true -> (c <? 128) = true.
Proof.
  unfold is_digit. intros H. apply andb_prop in H as [_ H].
  apply N.leb_le in H. apply N.ltb_lt. lia.
Qed.

Lemma ascii_text_app (a b : str) :
  ascii_text (a ++ b) = ascii_text a && ascii_text b.
Proof. apply forallb_app. Qed.

Lemma zfill_ascii (w : nat) (n : N) : ascii_text (zfill w (decimal n)) = true.
Proof.
  unfold zfill. rewrite ascii_text_app. apply andb_true_intro. split.
  - unfold ascii_text. apply forallb_forall. intros c Hc.
    apply repeat_spec in Hc. now subst.
  - unfold ascii_text. apply forallb_forall. intros c Hc.
    apply is_digit_ascii.
    pose proof (decimal_digits n) as D. rewrite Forall_forall in D. now apply D.
Qed.

(** The timestamp is ASCII whatever the reading. *)
Lemma stamp_ascii (d : datetime) : ascii_text (stamp d) = true.
Proof.
  rewrite stamp_fields.
  repeat (rewrite ascii_text_app; apply andb_true_intro; split);
    try apply zfill_ascii; reflexivity.
Qed.

(** ** [str.encode()] *)

Lemma encode_app (a b : str) :
  encode (a ++ b) =
    match encode a, encode b with
    | Some x, Some y => Some (x ++ y)
    | _, _ => None
    end.
Proof.
  induction a as [|c a IH]; simpl.
  - destruct (encode b); reflexivity.
  - destruct (utf8_char c) as [bs|]; [|reflexivity].
    rewrite IH. destruct (encode a) as [x|]; [|reflexivity].
    destruct (encode b) as [y|]; [|reflexivity].
    now rewrite app_assoc.
Qed.

Lemma utf8_char_scalar (c : N) :
  scalar c = true <-> exists bs, utf8_char c = Some bs.
Proof.
  unfold scalar, utf8_char, is_surrogate.
  destruct (c <? 0x80) eqn:E1; [split; [eauto|intros _]|].
  - apply N.ltb_lt in E1.
    apply andb_true_intro; split; [apply N.ltb_lt; lia|].
    apply negb_true_iff, andb_false_intro1, N.leb_gt. lia.
  - destruct (c <? 0x800) eqn:E2; [split; [eauto|intros _]|].
    + apply N.ltb_lt in E2.
      apply andb_true_intro; split; [apply N.ltb_lt; lia|].
      apply negb_true_iff, andb_false_intro1, N.leb_gt. lia.
    + destruct ((0xD800 <=? c) && (c <=? 0xDFFF)) eqn:E3.
      * rewrite andb_false_r. split; [discriminate|intros [bs H]; discriminate].
      * rewrite andb_true_r.
        destruct (c <? 0x10000) eqn:E4.
        -- apply N.ltb_lt in E4. split; [eauto|intros _]. apply N.ltb_lt. lia.
        -- destruct (c <? 0x110000); split; eauto; try discriminate.
           intros [bs H]; discriminate.
Qed.

Lemma encodable_encode (s : str) :
  encodable s = true <-> exists data, encode s = Some data.
Proof.
  induction s as [|c s IH]; simpl.
  - split; eauto.
  - rewrite andb_true_iff, IH, utf8_char_scalar. split.
    + intros [[bs ->] [data ->]]. eauto.
    + destruct (utf8_char c) as [bs|]; [|intros [? ?]; discriminate].
      destruct (encode s) as [data|]; [|intros [? ?]; discriminate].
      eauto.
Qed.

Lemma encode_none (s : str) : encodable s = false <-> encode s = None.
Proof.
  pose proof (encodable_encode s) as [H1 H2].
  destruct (encodable s) eqn:E; split; intros H.
  - discriminate.
  - destruct (H1 eq_refl) as [data Hd]. rewrite H in Hd. discriminate.
  - destruct (encode s) as [data|]; [|reflexivity].
    assert (false = true) by (apply H2; eauto). discriminate.
  - reflexivity.
Qed.

Lemma encodable_app (a b : str) :
  encodable (a ++ b) = encodable a && encodable b.
Proof. apply forallb_app. Qed.

Lemma ascii_encodable (s : str) : ascii_text s = true -> encodable s = true.
Proof.
  unfold ascii_text, encodable. rewrite !forallb_forall. intros H c Hc.
  specialize (H c Hc). apply N.ltb_lt in H.
  unfold scalar, is_surrogate.
  apply andb_true_intro; split; [apply N.ltb_lt; lia|].
  apply negb_true_iff, andb_false_intro1, N.leb_gt. lia.
Qed.

(** ASCII text is encoded byte for code point. *)
Lemma encode_ascii (s : str) :
  ascii_text s = true -> encode s = Some (map octet s).
Proof.
  induction s as [|c s IH]; simpl; [reflexivity|].
  intros H. apply andb_prop in H as [Hc Hs].
  unfold utf8_char. rewrite Hc, (IH Hs). reflexivity.
Qed.

(** What the runtime decodes from a request line can always be encoded. *)
Lemma latin1_encodable (raw : list byte) : encodable (latin1_decode raw) = true.
Proof.
  unfold encodable, latin1_decode. apply forallb_forall. intros c Hc.
  apply in_map_iff in Hc as [b [<- _]].
  pose proof (Byte.to_N_bounded b) as B.
  unfold scalar, is_surrogate.
  apply andb_true_intro; split; [apply N.ltb_lt; lia|].
  apply negb_true_iff, andb_false_intro1, N.leb_gt. lia.
Qed.

(** The encoder on one character of each width and on a surrogate. *)
Example encode_widths :
  encode [0x41; 0xE9; 0x4E2D; 0x1F44B]
    = Some [x41; xc3; xa9; xe4; xb8; xad; xf0; x9f; x91; x8b]
  /\ encode [0x41; 0xD800] = None.
Proof. split; vm_compute; reflexivity. Qed.

Lemma to_N_octet (c : N) : c < 256 -> Byte.to_N (octet c) = c.
Proof.
  intros Hc. unfold octet.
  change 0xFF with (N.ones 8). rewrite N.land_ones.
  rewrite N.mod_small by exact Hc.
  destruct (Byte.of_N c) as [b|] eqn:E.
  - now apply Byte.to_of_N.
  - apply Byte.of_N_None_iff in E. lia.
Qed.

Lemma map_octet_injective (a b : str) :
  ascii_text a = true -> ascii_text b = true ->
  map octet a = map octet b -> a = b.
Proof.
  revert b. induction a as [|x a IH]; intros [|y b]; simpl; try discriminate.
  - reflexivity.
  - intros Ha Hb E. apply andb_prop in Ha as [Hx Ha]. apply andb_prop in Hb as [Hy Hb].
    injection E as Exy E.
    apply N.ltb_lt in Hx, Hy.
    f_equal.
    + rewrite <- (to_N_octet x), <- (to_N_octet y) by lia. now rewrite Exy.
    + now apply IH.
Qed.

Lemma str_eqb_eq (a b : str) : str_eqb a b = true <-> a = b.
Proof.
  revert b. induction a as [|x a IH]; intros [|y b]; simpl;
    try (split; [discriminate | discriminate]).
  - split; reflexivity.
  - rewrite andb_true_iff, N.eqb_eq, IH. split.
    + intros [-> ->]. reflexivity.
    + intros E. injection E as -> ->. split; reflexivity.
Qed.

(** ** The [%] operator on the runtime's two log formats *)

Lemma percent_log_request (a b c : str) :
  percent (dq ++ lit "%s" ++ dq ++ lit " %s %s")
          [VStr a; VStr b; VStr c]
  = Ok (dq ++ a ++ dq ++ lit " " ++ b ++ lit " " ++ c).
Proof.
  rewrite <- (app_nil_r c) at 2. reflexivity.
Qed.

Lemma percent_log_error (z : Z) (m : str) :
  percent (lit "code %d, message %s") [VInt z; VStr m]
  = Ok (lit "code " ++ str_of_int z ++ lit ", message " ++ m).
Proof.
  rewrite <- (app_nil_r m) at 2. reflexivity.
Qed.

(* ================================================================== *)
(** * Running the methods *)

(** [log_message]: one clock read, then one line, or the exception of
    [%] and no line. *)
Lemma log_message_run (self : handler) (format : str) (args : list value)
    (h : platform) (s : state) :
  log_message self format args h s =
    match percent format args with
    | Ok m =>
        (Ok tt,
         {| reads := S (reads s);
            stdout := stdout s ++ [log_line (wall h (reads s)) m];
            httpd := httpd s; reply := reply s |})
    | Raise e =>
        (Raise e,
         {| reads := S (reads s); stdout := stdout s;
            httpd := httpd s; reply := reply s |})
    end.
Proof.
  unfold log_message, bind, datetime_now, lift, print, log_line.
  destruct (percent format args); cbn [reads stdout httpd reply]; reflexivity.
Qed.

Lemma send_response_run (self : handler) (code : N) (h : platform) (s : state) :
  send_response log_message self code h s =
    (Ok tt,
     {| reads := S (reads s);
        stdout := stdout s
                  ++ [log_line (wall h (reads s))
                               (request_summary (requestline self) code)];
        httpd := httpd s;
        reply := {| status := Some code;
                    sent_headers := sent_headers (reply s);
                    headers_ended := headers_ended (reply s);
                    body := body (reply s) |} |}).
Proof.
  unfold send_response, log_request, bind.
  rewrite log_message_run, percent_log_request.
  unfold set_reply, request_summary.
  cbn [reads stdout httpd reply status sent_headers headers_ended body].
  reflexivity.
Qed.

(** [do_GET] from any state: the log line, the status, the header, the
    second clock read, and the page or the encoder's exception. *)
Lemma do_GET_run (self : handler) (h : platform) (s : state) :
  do_GET self h s =
    let line := log_line (wall h (reads s))
                         (request_summary (requestline self) 200) in
    let html := render (path self) (stamp (wall h (S (reads s)))) in
    let sent := sent_headers (reply s)
                ++ [(lit "Content-type", lit "text/html")] in
    match encode html with
    | Some data =>
        (Ok tt,
         {| reads := S (S (reads s)); stdout := stdout s ++ [line];
            httpd := httpd s;
            reply := {| status := Some 200; sent_headers := sent;
                        headers_ended := true;
                        body := body (reply s) ++ data |} |})
    | None =>
        (Raise UnicodeEncodeError,
         {| reads := S (S (reads s)); stdout := stdout s ++ [line];
            httpd := httpd s;
            reply := {| status := Some 200; sent_headers := sent;
                        headers_ended := true;
                        body := body (reply s) |} |})
    end.
Proof.
  unfold do_GET. unfold bind at 1. rewrite send_response_run.
  unfold bind, send_header, end_headers, datetime_now, str_encode, wfile_write,
    set_reply, ret, raise.
  cbn [reads stdout httpd reply status sent_headers headers_ended body].
  destruct (encode _);
    cbn [reads stdout httpd reply status sent_headers headers_ended body];
    reflexivity.
Qed.

(** On a path the encoder refuses, [do_GET] raises, with the status and
    the header already handed over and no body written. *)
Lemma do_GET_raises (self : handler) (h : platform) (s : state) :
  encodable (path self) = false ->
  exists s',
    do_GET self h s = (Raise UnicodeEncodeError, s') /\
    status (reply s') = Some 200 /\
    body (reply s') = body (reply s).
Proof.
  intros Hp. rewrite do_GET_run. cbn zeta.
  assert (E : encodable (render (path self) (stamp (wall h (S (reads s)))))
              = false).
  { unfold render. rewrite !encodable_app, Hp.
    now rewrite andb_false_r. }
  apply encode_none in E. rewrite E.
  eexists. split; [reflexivity|]. split; reflexivity.
Qed.

(** The runtime's reply to a request whose method has no responder. *)
Lemma unsupported_run (self : handler) (h : platform) (s : state) :
  str_eqb (command self) (lit "GET") = false ->
  exists r,
    handle_one_request SimpleHandler self h s =
      (Ok tt,
       {| reads := S (S (reads s));
          stdout := stdout s
            ++ [log_line (wall h (reads s))
                  (lit "code 501, message Unsupported method ("
                   ++ repr (command self) ++ lit ")");
                log_line (wall h (S (reads s)))
                  (request_summary (requestline self) 501)];
          httpd := httpd s;
          reply := r |})
    /\ status r = Some 501.
Proof.
  intros E.
  unfold handle_one_request, SimpleHandler, getattr, log_message_of.
  change (str_eqb (lit "do_" ++ command self) (lit "do_GET"))
    with (str_eqb (command self) (lit "GET")).
  rewrite E.
  unfold send_error. unfold bind at 1.
  unfold log_error. rewrite log_message_run, percent_log_error.
  unfold bind at 1. rewrite send_response_run.
  cbn [reads stdout httpd reply status sent_headers headers_ended body].
  unfold bind, send_header, end_headers, wfile_write, set_reply, ret.
  cbn [reads stdout httpd reply status sent_headers headers_ended body
       N.leb N.eqb N.compare Pos.compare Pos.compare_cont Pos.eqb negb orb andb].
  rewrite <- app_assoc.
  destruct (negb (str_eqb (command self) (lit "HEAD")) && _);
    eexists; (split; [reflexivity|reflexivity]).
Qed.

(** ** The page and its bytes *)

Lemma encode_utf8 (s : str) : encodable s = true -> encode s = Some (utf8 s).
Proof.
  intros H. apply encodable_encode in H as [data H].
  unfold utf8. now rewrite H.
Qed.

Lemma utf8_app (a b : str) :
  encodable a = true -> encodable b = true -> utf8 (a ++ b) = utf8 a ++ utf8 b.
Proof.
  intros Ha Hb. unfold utf8 at 1.
  rewrite encode_app, (encode_utf8 a Ha), (encode_utf8 b Hb). reflexivity.
Qed.

Lemma utf8_ascii (s : str) : ascii_text s = true -> utf8 s = map octet s.
Proof. intros H. unfold utf8. now rewrite (encode_ascii s H). Qed.

Lemma page_head_encodable : encodable page_head = true.
Proof. vm_compute. reflexivity. Qed.

Lemma page_mid_encodable : encodable page_mid = true.
Proof. vm_compute. reflexivity. Qed.

Lemma page_tail_encodable : encodable page_tail = true.
Proof. vm_compute. reflexivity. Qed.

Lemma render_encodable (path : str) (t : datetime) :
  encodable (render path (stamp t)) = encodable path.
Proof.
  unfold render. rewrite !encodable_app.
  rewrite page_head_encodable, page_mid_encodable, page_tail_encodable.
  rewrite (ascii_encodable _ (stamp_ascii t)).
  now rewrite !andb_true_r.
Qed.

(** The body is the template's bytes around the bytes of the path and of
    the timestamp. *)
Lemma utf8_render (path : str) (t : datetime) :
  encodable path = true ->
  utf8 (render path (stamp t)) =
    utf8 page_head ++ utf8 path ++ utf8 page_mid
    ++ map octet (stamp t) ++ utf8 page_tail.
Proof.
  intros Hp.
  pose proof (ascii_encodable _ (stamp_ascii t)) as Ht.
  unfold render.
  rewrite utf8_app;
    [|exact page_head_encodable
     |rewrite !encodable_app, Hp, page_mid_encodable, Ht, page_tail_encodable;
      reflexivity].
  rewrite utf8_app;
    [|exact Hp
     |rewrite !encodable_app, page_mid_encodable, Ht, page_tail_encodable;
      reflexivity].
  rewrite utf8_app;
    [|exact page_mid_encodable
     |rewrite !encodable_app, Ht, page_tail_encodable; reflexivity].
  rewrite utf8_app; [|exact Ht|exact page_tail_encodable].
  rewrite (utf8_ascii _ (stamp_ascii t)). reflexivity.
Qed.

Lemma page_tail_bytes_length : length (utf8 page_tail) = length page_tail.
Proof. vm_compute. reflexivity. Qed.

Lemma firstn_skipn_middle {A} (front mid back : list A) (n k : nat) :
  length mid = n -> k = length front ->
  firstn n (skipn k (front ++ mid ++ back)) = mid.
Proof.
  intros <- ->.
  rewrite skipn_app, skipn_all, Nat.sub_diag. cbn [skipn app].
  rewrite firstn_app, firstn_all, Nat.sub_diag. cbn [firstn].
  apply app_nil_r.
Qed.

(** The timestamp of a body is the text [strftime] produced. *)
Lemma body_timestamp_render (path : str) (t : datetime) :
  encodable path = true -> valid_datetime t = true ->
  body_timestamp (utf8 (render path (stamp t))) = map octet (stamp t).
Proof.
  intros Hp V. rewrite (utf8_render path t Hp).
  pose proof (stamp_length t V) as L.
  unfold body_timestamp.
  rewrite (app_assoc (utf8 page_head)), (app_assoc _ (utf8 page_mid)).
  apply firstn_skipn_middle.
  - rewrite length_map. exact L.
  - rewrite !length_app, length_map, L, page_tail_bytes_length.
    generalize (length page_tail), (length (utf8 page_head)),
      (length (utf8 path)), (length (utf8 page_mid)).
    intros. lia.
Qed.

(** ** What the runtime makes of the request line *)

Lemma lstrip_forallb (P : N -> bool) (chars s : str) :
  forallb P s = true -> forallb P (lstrip chars s) = true.
Proof.
  induction s as [|x s IH]; intros H; cbn [lstrip]; [reflexivity|].
  destruct (existsb (N.eqb x) chars); [|exact H].
  cbn [forallb] in H. apply andb_prop in H as [_ H]. now apply IH.
Qed.

Lemma lstrip_length (chars s : str) :
  (length (lstrip chars s) <= length s)%nat.
Proof.
  induction s as [|x s IH]; cbn [lstrip]; [lia|].
  destruct (existsb (N.eqb x) chars); cbn [length]; lia.
Qed.

(** A property of the slash and of every character of the decoded wire
    path holds of every character of the path the handler sees. *)
Lemma handler_path_forallb (P : N -> bool) (r : request) :
  P 47 = true ->
  forallb P (latin1_decode (raw_path r)) = true ->
  forallb P (path (handler_of r)) = true.
Proof.
  intros H47 H. unfold handler_of, path.
  destruct (startswith (lit "//") (latin1_decode (raw_path r))); [|exact H].
  change (lit "/" ++ lstrip (lit "/") (latin1_decode (raw_path r)))
    with (47 :: lstrip (lit "/") (latin1_decode (raw_path r))).
  cbn [forallb]. rewrite H47. now apply lstrip_forallb.
Qed.

Lemma handler_path_encodable (r : request) :
  encodable (path (handler_of r)) = true.
Proof.
  apply handler_path_forallb; [reflexivity | apply latin1_encodable].
Qed.

Lemma latin1_decode_latin1 (raw : list byte) :
  latin1_text (latin1_decode raw) = true.
Proof.
  unfold latin1_text, latin1_decode. apply forallb_forall. intros c Hc.
  apply in_map_iff in Hc as [b [<- _]].
  pose proof (Byte.to_N_bounded b) as B. apply N.ltb_lt. lia.
Qed.

Lemma handler_path_latin1 (r : request) :
  latin1_text (path (handler_of r)) = true.
Proof.
  apply handler_path_forallb; [reflexivity | apply latin1_decode_latin1].
Qed.

(** The rewrite of a leading double slash never lengthens the path. *)
Lemma handler_path_length (r : request) :
  (length (path (handler_of r)) <= length (raw_path r))%nat.
Proof.
  unfold handler_of, path.
  rewrite <- (length_map Byte.to_N (raw_path r)).
  change (map Byte.to_N (raw_path r)) with (latin1_decode (raw_path r)).
  generalize (latin1_decode (raw_path r)). intros target.
  destruct (startswith (lit "//") target) eqn:E; [|lia].
  destruct target as [|a [|b rest]].
  - discriminate E.
  - change (startswith (lit "//") [a]) with ((47 =? a) && false) in E.
    rewrite andb_false_r in E. discriminate E.
  - change (startswith (lit "//") (a :: b :: rest))
      with ((47 =? a) && ((47 =? b) && true)) in E.
    apply andb_prop in E as [Ea Eb]. apply andb_prop in Eb as [Eb _].
    apply N.eqb_eq in Ea. apply N.eqb_eq in Eb. subst a. subst b.
    change (lit "/" ++ lstrip (lit "/") (47 :: 47 :: rest))
      with (47 :: lstrip (lit "/") rest).
    pose proof (lstrip_length (lit "/") rest). cbn [length]. lia.
Qed.

Lemma slash_byte (b : byte) : (47 =? Byte.to_N b) = Byte.eqb x2f b.
Proof. destruct b; reflexivity. Qed.

Lemma startswith_slashes (raw : list byte) :
  startswith (lit "//") (latin1_decode raw)
  = starts_with (bytes_lit "//") raw.
Proof.
  destruct raw as [|a [|b rest]].
  - reflexivity.
  - change (startswith (lit "//") (latin1_decode [a]))
      with ((47 =? Byte.to_N a) && false).
    change (starts_with (bytes_lit "//") [a]) with (Byte.eqb x2f a && false).
    now rewrite !andb_false_r.
  - change (startswith (lit "//") (latin1_decode (a :: b :: rest)))
      with ((47 =? Byte.to_N a) && ((47 =? Byte.to_N b) && true)).
    change (starts_with (bytes_lit "//") (a :: b :: rest))
      with (Byte.eqb x2f a && (Byte.eqb x2f b && true)).
    now rewrite !slash_byte.
Qed.

(** A wire path that does not begin with two slashes is delivered as it
    is. *)
Lemma handler_path_plain (r : request) :
  starts_with (bytes_lit "//") (raw_path r) = false ->
  path (handler_of r) = latin1_decode (raw_path r).
Proof.
  intros H. unfold handler_of, path.
  now rewrite startswith_slashes, H.
Qed.

(** The runtime's rewrite at work. *)
Example handler_of_collapses_slashes :
  path (handler_of (sample_request "GET" "//evil.example/x"))
    = lit "/evil.example/x"
  /\ path (handler_of (sample_request "GET" "/a//b")) = lit "/a//b"
  /\ requestline (handler_of (sample_request "GET" "/"))
     = lit "GET / HTTP/1.1".
Proof. repeat split; vm_compute; reflexivity. Qed.

(** ** Dispatch *)

Lemma handle_GET (self : handler) (h : platform) (s : state) :
  command self = lit "GET" ->
  handle_one_request SimpleHandler self h s = do_GET self h s.
Proof.
  intros E. unfold handle_one_request, SimpleHandler, getattr.
  rewrite E. reflexivity.
Qed.

Lemma command_GET (r : request) :
  raw_command r = bytes_lit "GET" -> command (handler_of r) = lit "GET".
Proof. intros E. unfold handler_of, command. rewrite E. reflexivity. Qed.

(** A GET request, from any state: the page, rendered at the second clock
    read, and one log line, written at the first. *)
Lemma finish_GET (r : request) (h : platform) (s : state) :
  raw_command r = bytes_lit "GET" ->
  finish_request SimpleHandler r h s =
    let a := page_response (path (handler_of r))
                           (wall h (S (reads s))) in
    (Ok a,
     {| reads := S (S (reads s));
        stdout := stdout s
                  ++ [log_line (wall h (reads s))
                        (request_summary (requestline (handler_of r))
                                         200)];
        httpd := httpd s;
        reply := a |}).
Proof.
  intros E. unfold finish_request.
  rewrite (handle_GET _ _ _ (command_GET r E)), do_GET_run.
  cbn zeta.
  assert (Hp : encodable (render (path (handler_of r))
                                 (stamp (wall h (S (reads (set_reply no_response s))))))
               = true)
    by (rewrite render_encodable; apply handler_path_encodable).
  rewrite (encode_utf8 _ Hp).
  unfold page_response, set_reply, no_response.
  cbn [reads stdout httpd reply status sent_headers headers_ended body app snd fst].
  reflexivity.
Qed.

(** Any other request: the runtime's 501 reply and two log lines. *)
Lemma finish_unsupported (r : request) (h : platform) (s : state) :
  str_eqb (command (handler_of r)) (lit "GET") = false ->
  exists a,
    finish_request SimpleHandler r h s =
      (Ok a,
       {| reads := S (S (reads s));
          stdout := stdout s
            ++ [log_line (wall h (reads s))
                  (lit "code 501, message Unsupported method ("
                   ++ repr (command (handler_of r)) ++ lit ")");
                log_line (wall h (S (reads s)))
                  (request_summary (requestline (handler_of r)) 501)];
          httpd := httpd s;
          reply := a |})
    /\ status a = Some 501.
Proof.
  intros E. unfold finish_request.
  destruct (unsupported_run (handler_of r) h (set_reply no_response s) E)
    as (a & -> & Ha).
  exists a. split; [reflexivity | exact Ha].
Qed.

(** Every request leaves the server object alone, reads the clock twice,
    and only adds lines to standard output. *)
Lemma finish_request_frame (r : request) (h : platform) (s : state) :
  exists a lines,
    finish_request SimpleHandler r h s =
      (Ok a,
       {| reads := S (S (reads s)); stdout := stdout s ++ lines;
          httpd := httpd s; reply := a |}).
Proof.
  destruct (str_eqb (command (handler_of r)) (lit "GET")) eqn:E.
  - apply str_eqb_eq in E.
    unfold finish_request. rewrite (handle_GET _ _ _ E), do_GET_run.
    cbn zeta. destruct (encode _); eexists; eexists; reflexivity.
  - destruct (finish_unsupported r h s E) as (a & -> & _).
    eexists; eexists; reflexivity.
Qed.

(** ** The serving loop *)

Lemma serve_forever_frame (incoming : list request) (h : platform) :
  forall s,
  exists answers s',
    serve_forever SimpleHandler incoming h s = (Ok answers, s') /\
    length answers = length incoming /\
    reads s' = (reads s + 2 * length incoming)%nat /\
    httpd s' = httpd s /\
    exists lines, stdout s' = stdout s ++ lines.
Proof.
  induction incoming as [|r rest IH]; intros s.
  - exists [], s. cbn [serve_forever].
    repeat split; try (cbn [length]; lia).
    exists []. now rewrite app_nil_r.
  - cbn [serve_forever]. unfold bind at 1.
    destruct (finish_request_frame r h s) as (a & lines & ->).
    unfold bind at 1.
    destruct (IH {| reads := S (S (reads s)); stdout := stdout s ++ lines;
                    httpd := httpd s; reply := a |})
      as (answers & s' & -> & Hlen & Hreads & Hhttpd & lines' & Hout).
    exists (a :: answers), s'.
    cbn [reads stdout httpd reply] in *.
    split; [reflexivity|].
    split; [cbn [length]; now rewrite Hlen|].
    split; [rewrite Hreads; cbn [length]; lia|].
    split; [exact Hhttpd|].
    exists (lines ++ lines'). now rewrite Hout, app_assoc.
Qed.

(** [run_server], once the port could be bound: the two lines, then the
    loop. *)
Lemma run_server_startup (port : Z) (incoming : list request) (h : platform) :
  (0 <= port <= 65535)%Z -> port_free h port = true ->
  run_server port incoming h boot =
    serve_forever SimpleHandler incoming h (started port).
Proof.
  intros R F. unfold run_server. unfold bind at 1. unfold HTTPServer.
  cbn [snd].
  replace ((port <? 0) || (65535 <? port))%Z with false
    by (symmetry; apply orb_false_intro; apply Z.ltb_ge; lia).
  rewrite F. unfold bind, print, boot, started.
  cbn [reads stdout httpd reply app].
  reflexivity.
Qed.

(** Without the port, nothing is printed. *)
Lemma run_server_bind_failure (port : Z) (incoming : list request)
    (h : platform) :
  (0 <= port <= 65535)%Z -> port_free h port = false ->
  run_server port incoming h boot = (Raise OSError, boot).
Proof.
  intros R F. unfold run_server. unfold bind at 1. unfold HTTPServer.
  cbn [snd].
  replace ((port <? 0) || (65535 <? port))%Z with false
    by (symmetry; apply orb_false_intro; apply Z.ltb_ge; lia).
  rewrite F. reflexivity.
Qed.

Lemma occurs_in_app_r {A} (needle hay back : list A) :
  occurs_in needle hay -> occurs_in needle (hay ++ back).
Proof.
  intros (l & r & ->). exists l, (r ++ back). now rewrite <- !app_assoc.
Qed.

Lemma occurs_in_app_l {A} (needle front hay : list A) :
  occurs_in needle hay -> occurs_in needle (front ++ hay).
Proof.
  intros (l & r & ->). exists (front ++ l), r. now rewrite <- !app_assoc.
Qed.

Lemma starts_with_sound (needle hay : list byte) :
  starts_with needle hay = true -> exists r, hay = needle ++ r.
Proof.
  revert hay. induction needle as [|x needle IH]; intros hay H.
  - exists hay. reflexivity.
  - destruct hay as [|y hay]; [discriminate|]. cbn [starts_with] in H.
    apply andb_prop in H as [Hxy H]. apply Byte.byte_dec_bl in Hxy. subst y.
    destruct (IH hay H) as [r ->]. exists r. reflexivity.
Qed.

Lemma occurs_inb_sound (needle hay : list byte) :
  occurs_inb needle hay = true -> occurs_in needle hay.
Proof.
  induction hay as [|y hay IH]; cbn [occurs_inb]; intros H.
  - rewrite orb_false_r in H. apply starts_with_sound in H as [r ->].
    exists [], r. reflexivity.
  - apply orb_prop in H as [H|H].
    + apply starts_with_sound in H as [r ->]. exists [], r. reflexivity.
    + apply (occurs_in_app_l _ [y]). now apply IH.
Qed.

Lemma page_head_ends :
  exists front,
    utf8 page_head = front ++ bytes_lit "<p><strong>Path:</strong> ".
Proof.
  exists (firstn (length (utf8 page_head) - 26) (utf8 page_head)).
  vm_compute. reflexivity.
Qed.

Lemma page_mid_starts :
  exists back, utf8 page_mid = bytes_lit "</p>" ++ back.
Proof.
  exists (skipn 4 (utf8 page_mid)). vm_compute. reflexivity.
Qed.

(** The path stands in the body between the template's own bytes. *)
Lemma body_shows_path (path : str) (t : datetime) :
  encodable path = true ->
  occurs_in (bytes_lit "<p><strong>Path:</strong> " ++ utf8 path
             ++ bytes_lit "</p>")
            (utf8 (render path (stamp t))).
Proof.
  intros Hp. rewrite (utf8_render path t Hp).
  destruct page_head_ends as [front ->].
  destruct page_mid_starts as [back ->].
  exists front, (back ++ map octet (stamp t) ++ utf8 page_tail).
  now rewrite <- !app_assoc.
Qed.

Lemma body_shows_title (path : str) (t : datetime) :
  encodable path = true ->
  occurs_in (bytes_lit "<title>Simple HTTP Server</title>")
            (utf8 (render path (stamp t))).
Proof.
  intros Hp. rewrite (utf8_render path t Hp).
  apply occurs_in_app_r, occurs_inb_sound. vm_compute. reflexivity.
Qed.

(* ================================================================== *)
(** * The claims *)

(** C1. For every request path P, the path attribute the runtime hands to
    the handler, handling a GET request with path P gives a response with
    status 200 whose body is the UTF-8 encoding of the page text with P
    spliced in as it is; the bytes of P stand in the body unchanged,
    between [<p><strong>Path:</strong> ] and [</p>], with no escaping. *)
Theorem C1_get_reflects_path (r : request) (h : platform) (s : state) :
  raw_command r = bytes_lit "GET" ->
  let P := path (handler_of r) in
  exists a s' data,
    finish_request SimpleHandler r h s = (Ok a, s') /\
    status a = Some 200 /\
    encode P = Some data /\
    encode (page_head ++ P ++ page_mid ++ stamp (wall h (S (reads s)))
            ++ page_tail) = Some (body a) /\
    occurs_in (bytes_lit "<p><strong>Path:</strong> " ++ data
               ++ bytes_lit "</p>") (body a).
Proof.
  intros G P. rewrite (finish_GET r h s G). cbn zeta. fold P.
  pose proof (handler_path_encodable r) as Hp. fold P in Hp.
  eexists; eexists; exists (utf8 P).
  split; [reflexivity|].
  split; [reflexivity|].
  split; [apply encode_utf8, Hp|].
  split.
  - change (encode (render P (stamp (wall h (S (reads s)))))
            = Some (utf8 (render P (stamp (wall h (S (reads s))))))).
    apply encode_utf8. now rewrite render_encodable.
  - cbn [body page_response]. now apply body_shows_path.
Qed.

Lemma C1_witness :
  raw_command (sample_request "GET" "/<b>x</b>?q=1") = bytes_lit "GET" /\
  exists a s' data,
    finish_request SimpleHandler (sample_request "GET" "/<b>x</b>?q=1")
                   sample_host boot = (Ok a, s') /\
    status a = Some 200 /\
    encode (lit "/<b>x</b>?q=1") = Some data /\
    encode (page_head ++ lit "/<b>x</b>?q=1" ++ page_mid
            ++ stamp (wall sample_host 1) ++ page_tail) = Some (body a) /\
    occurs_in (bytes_lit "<p><strong>Path:</strong> " ++ data
               ++ bytes_lit "</p>") (body a).
Proof.
  split; [reflexivity|].
  exact (C1_get_reflects_path (sample_request "GET" "/<b>x</b>?q=1")
                              sample_host boot eq_refl).
Defined.

(** C2. For every GET request, whatever its path, the response carries the
    header [Content-type] with the value [text/html], and the handler sets
    no other header. *)
Theorem C2_content_type (r : request) (h : platform) (s : state) :
  raw_command r = bytes_lit "GET" ->
  exists a s',
    finish_request SimpleHandler r h s = (Ok a, s') /\
    sent_headers a = [(lit "Content-type", lit "text/html")].
Proof.
  intros G. rewrite (finish_GET r h s G). cbn zeta.
  eexists; eexists. split; reflexivity.
Qed.

Lemma C2_witness :
  raw_command (sample_request "GET" "/any/path") = bytes_lit "GET" /\
  exists a s',
    finish_request SimpleHandler (sample_request "GET" "/any/path")
                   sample_host boot = (Ok a, s') /\
    sent_headers a = [(lit "Content-type", lit "text/html")].
Proof.
  split; [reflexivity|].
  exact (C2_content_type (sample_request "GET" "/any/path")
                         sample_host boot eq_refl).
Defined.

(** C3. For every GET request the timestamp in the body is the reading of
    the wall clock taken while the page is rendered (the request's second
    read, after the one of the log line), printed as YYYY-MM-DD HH:MM:SS:
    the six numbers read back from the text are the fields of that reading.
    Nothing keeps it: the clock is read anew in every request. *)
Theorem C3_timestamp_read_at_render (r : request) (h : platform) (s : state) :
  raw_command r = bytes_lit "GET" ->
  let now := wall h (S (reads s)) in
  valid_datetime now = true ->
  exists a s',
    finish_request SimpleHandler r h s = (Ok a, s') /\
    reads s' = S (S (reads s)) /\
    encode (render (path (handler_of r))
                   (strftime now timestamp_format)) = Some (body a) /\
    body_timestamp (body a) = map octet (strftime now timestamp_format) /\
    parse_timestamp (strftime now timestamp_format) =
      Some (year now, month now, day now, hour now, minute now, second now).
Proof.
  intros G now V. rewrite (finish_GET r h s G). cbn zeta. fold now.
  pose proof (handler_path_encodable r) as Hp.
  eexists; eexists.
  split; [reflexivity|].
  split; [reflexivity|].
  cbn [body page_response].
  split; [apply encode_utf8; now rewrite render_encodable|].
  split; [now apply body_timestamp_render|].
  now apply parse_stamp.
Qed.

Lemma C3_witness :
  raw_command (sample_request "GET" "/") = bytes_lit "GET" /\
  valid_datetime (wall sample_host 1) = true /\
  exists a s',
    finish_request SimpleHandler (sample_request "GET" "/") sample_host boot
      = (Ok a, s') /\
    reads s' = 2%nat /\
    encode (render (lit "/") (strftime (wall sample_host 1) timestamp_format))
      = Some (body a) /\
    body_timestamp (body a)
      = map octet (strftime (wall sample_host 1) timestamp_format) /\
    parse_timestamp (strftime (wall sample_host 1) timestamp_format) =
      Some (2026, 11, 4, 1, 15, 1).
Proof.
  split; [reflexivity|]. split; [reflexivity|].
  exact (C3_timestamp_read_at_render (sample_request "GET" "/") sample_host
                                     boot eq_refl eq_refl).
Defined.

(** C4, as stated, fails: a POST request is answered by the runtime's
    [send_error], which logs the error and then the request, two lines. *)
Lemma C4_counterexample :
  let s' := snd (finish_request SimpleHandler (sample_request "POST" "/")
                                sample_host boot) in
  stdout s' =
    [lit "[2026-11-04 01:15:00] code 501, message Unsupported method ('POST')";
     lit "[2026-11-04 01:15:01] " ++ dq ++ lit "POST / HTTP/1.1" ++ dq
       ++ lit " 501 -"] /\
  ~ (exists line, stdout s' = stdout boot ++ [line]).
Proof.
  cbn zeta.
  assert (E : stdout (snd (finish_request SimpleHandler
                             (sample_request "POST" "/") sample_host boot)) =
    [lit "[2026-11-04 01:15:00] code 501, message Unsupported method ('POST')";
     lit "[2026-11-04 01:15:01] " ++ dq ++ lit "POST / HTTP/1.1" ++ dq
       ++ lit " 501 -"])
    by (vm_compute; reflexivity).
  rewrite E. split; [reflexivity|].
  intros [line H]. cbn [stdout boot app] in H.
  apply (f_equal (@length str)) in H. cbn [length] in H. discriminate H.
Qed.

(** C4, amended. Every GET request produces exactly one log line on
    standard output, [[<timestamp>] <summary>]: the timestamp is the clock
    reading at the time of logging printed as YYYY-MM-DD HH:MM:SS, the
    summary is the runtime's format string interpolated with its
    arguments (the request line, the code and [-]). *)
Theorem C4_get_logs_one_line (r : request) (h : platform) (s : state) :
  raw_command r = bytes_lit "GET" ->
  let t := wall h (reads s) in
  valid_datetime t = true ->
  exists a s' summary,
    finish_request SimpleHandler r h s = (Ok a, s') /\
    percent (dq ++ lit "%s" ++ dq ++ lit " %s %s")
            [VStr (requestline (handler_of r)); VStr (lit "200");
             VStr (lit "-")] = Ok summary /\
    stdout s' =
      stdout s ++ [lit "[" ++ strftime t timestamp_format ++ lit "] "
                   ++ summary] /\
    parse_timestamp (strftime t timestamp_format) =
      Some (year t, month t, day t, hour t, minute t, second t).
Proof.
  intros G t V. rewrite (finish_GET r h s G). cbn zeta. fold t.
  eexists; eexists; eexists.
  split; [reflexivity|].
  split; [apply percent_log_request|].
  split; [|now apply parse_stamp].
  cbn [stdout]. unfold log_line, request_summary. reflexivity.
Qed.

Lemma C4_witness :
  raw_command (sample_request "GET" "/") = bytes_lit "GET" /\
  valid_datetime (wall sample_host 0) = true /\
  exists a s' summary,
    finish_request SimpleHandler (sample_request "GET" "/") sample_host boot
      = (Ok a, s') /\
    percent (dq ++ lit "%s" ++ dq ++ lit " %s %s")
            [VStr (lit "GET / HTTP/1.1"); VStr (lit "200"); VStr (lit "-")]
      = Ok summary /\
    stdout s' =
      [] ++ [lit "[" ++ strftime (wall sample_host 0) timestamp_format
             ++ lit "] " ++ summary] /\
    parse_timestamp (strftime (wall sample_host 0) timestamp_format) =
      Some (2026, 11, 4, 1, 15, 0).
Proof.
  split; [reflexivity|]. split; [reflexivity|].
  exact (C4_get_logs_one_line (sample_request "GET" "/") sample_host boot
                              eq_refl eq_refl).
Defined.

(** C5. Handling requests, of any method, leaves the server object as it
    was: after any run of requests, unsupported methods among them, the
    listening address is the one fixed at start, and a GET request is
    answered exactly as it would have been before them at the same clock
    reading. *)
Theorem C5_requests_leave_no_trace (before : list request) (g : request)
    (h : platform) (s : state) :
  raw_command g = bytes_lit "GET" ->
  wall h (S (reads s + 2 * length before)) = wall h (S (reads s)) ->
  exists answers s1,
    serve_forever SimpleHandler before h s = (Ok answers, s1) /\
    httpd s1 = httpd s /\
    fst (finish_request SimpleHandler g h s1)
      = fst (finish_request SimpleHandler g h s).
Proof.
  intros G W.
  destruct (serve_forever_frame before h s)
    as (answers & s1 & E & _ & Hreads & Hhttpd & _).
  exists answers, s1.
  split; [exact E|]. split; [exact Hhttpd|].
  rewrite !(finish_GET g h _ G). cbn zeta. cbn [fst].
  now rewrite Hreads, W.
Qed.

Lemma C5_witness :
  raw_command (sample_request "GET" "/") = bytes_lit "GET" /\
  wall frozen_host
       (S (reads (started 8080)
           + 2 * length [sample_request "POST" "/form";
                         sample_request "DELETE" "/"]))
    = wall frozen_host (S (reads (started 8080))) /\
  exists answers s1,
    serve_forever SimpleHandler
      [sample_request "POST" "/form"; sample_request "DELETE" "/"]
      frozen_host (started 8080) = (Ok answers, s1) /\
    httpd s1 = httpd (started 8080) /\
    fst (finish_request SimpleHandler (sample_request "GET" "/")
                        frozen_host s1)
      = fst (finish_request SimpleHandler (sample_request "GET" "/")
                            frozen_host (started 8080)).
Proof.
  split; [reflexivity|]. split; [reflexivity|].
  exact (C5_requests_leave_no_trace
           [sample_request "POST" "/form"; sample_request "DELETE" "/"]
           (sample_request "GET" "/") frozen_host (started 8080)
           eq_refl eq_refl).
Defined.

(** C6. A GET request with path [/] gives status 200 and a body that holds
    both [<title>Simple HTTP Server</title>] and
    [<p><strong>Path:</strong> /</p>]. *)
Theorem C6_root_page (r : request) (h : platform) (s : state) :
  raw_command r = bytes_lit "GET" ->
  raw_path r = bytes_lit "/" ->
  exists a s',
    finish_request SimpleHandler r h s = (Ok a, s') /\
    status a = Some 200 /\
    occurs_in (bytes_lit "<title>Simple HTTP Server</title>") (body a) /\
    occurs_in (bytes_lit "<p><strong>Path:</strong> /</p>") (body a).
Proof.
  intros G R. rewrite (finish_GET r h s G). cbn zeta.
  assert (P : path (handler_of r) = latin1_decode (bytes_lit "/"))
    by (rewrite handler_path_plain; rewrite R; reflexivity).
  rewrite P.
  eexists; eexists.
  split; [reflexivity|].
  split; [reflexivity|].
  cbn [body page_response].
  assert (E : encodable (latin1_decode (bytes_lit "/")) = true)
    by apply latin1_encodable.
  split.
  - now apply body_shows_title.
  - apply (body_shows_path _ (wall h (S (reads s)))) in E.
    exact E.
Qed.

Lemma C6_witness :
  raw_command (sample_request "GET" "/") = bytes_lit "GET" /\
  raw_path (sample_request "GET" "/") = bytes_lit "/" /\
  exists a s',
    finish_request SimpleHandler (sample_request "GET" "/") sample_host boot
      = (Ok a, s') /\
    status a = Some 200 /\
    occurs_in (bytes_lit "<title>Simple HTTP Server</title>") (body a) /\
    occurs_in (bytes_lit "<p><strong>Path:</strong> /</p>") (body a).
Proof.
  split; [reflexivity|]. split; [reflexivity|].
  exact (C6_root_page (sample_request "GET" "/") sample_host boot
                      eq_refl eq_refl).
Defined.

(** C7. Started from the script, whatever the command line, the server
    binds port 8080, the default of [run_server], and, once bound, has
    written exactly two lines when it starts to serve:
    [Server running on http://localhost:8080] and
    [Press Ctrl+C to stop the server]; whatever follows them on standard
    output comes from the requests. *)
Theorem C7_startup_lines (argv : list str) (incoming : list request)
    (h : platform) :
  port_free h 8080 = true ->
  default_port = 8080%Z /\
  main argv incoming h boot =
    serve_forever SimpleHandler incoming h
      {| reads := 0;
         stdout := [lit "Server running on http://localhost:8080";
                    lit "Press Ctrl+C to stop the server"];
         httpd := Some {| server_address := ([], 8080%Z) |};
         reply := no_response |} /\
  main argv [] h boot =
    (Ok [],
     {| reads := 0;
        stdout := [lit "Server running on http://localhost:8080";
                   lit "Press Ctrl+C to stop the server"];
        httpd := Some {| server_address := ([], 8080%Z) |};
        reply := no_response |}) /\
  exists answers s' logs,
    main argv incoming h boot = (Ok answers, s') /\
    httpd s' = Some {| server_address := ([], 8080%Z) |} /\
    stdout s' = [lit "Server running on http://localhost:8080";
                 lit "Press Ctrl+C to stop the server"] ++ logs.
Proof.
  intros F.
  assert (R : (0 <= 8080 <= 65535)%Z) by lia.
  assert (E : forall l, main argv l h boot
                        = serve_forever SimpleHandler l h (started 8080)).
  { intros l. unfold main, default_port. now apply run_server_startup. }
  split; [reflexivity|].
  split; [rewrite E; reflexivity|].
  split; [rewrite E; reflexivity|].
  rewrite E.
  destruct (serve_forever_frame incoming h (started 8080))
    as (answers & s' & -> & _ & _ & Hhttpd & logs & Hout).
  exists answers, s', logs.
  split; [reflexivity|]. split; [exact Hhttpd|exact Hout].
Qed.

Lemma C7_witness :
  port_free sample_host 8080 = true /\
  default_port = 8080%Z /\
  main [lit "simple_server.py"; lit "--port"; lit "9000"]
       [sample_request "GET" "/"] sample_host boot =
    serve_forever SimpleHandler [sample_request "GET" "/"] sample_host
      {| reads := 0;
         stdout := [lit "Server running on http://localhost:8080";
                    lit "Press Ctrl+C to stop the server"];
         httpd := Some {| server_address := ([], 8080%Z) |};
         reply := no_response |} /\
  main [lit "simple_server.py"; lit "--port"; lit "9000"] [] sample_host boot =
    (Ok [],
     {| reads := 0;
        stdout := [lit "Server running on http://localhost:8080";
                   lit "Press Ctrl+C to stop the server"];
        httpd := Some {| server_address := ([], 8080%Z) |};
        reply := no_response |}) /\
  exists answers s' logs,
    main [lit "simple_server.py"; lit "--port"; lit "9000"]
         [sample_request "GET" "/"] sample_host boot = (Ok answers, s') /\
    httpd s' = Some {| server_address := ([], 8080%Z) |} /\
    stdout s' = [lit "Server running on http://localhost:8080";
                 lit "Press Ctrl+C to stop the server"] ++ logs.
Proof.
  split; [reflexivity|].
  exact (C7_startup_lines
           [lit "simple_server.py"; lit "--port"; lit "9000"]
           [sample_request "GET" "/"] sample_host eq_refl).
Defined.

(** C8. For two GET requests served one after the other, with any requests
    between them, each body carries the reading of the clock taken while
    that request was rendered, the second a later read than the first; the
    two timestamps are equal exactly when the two readings show the same
    clock second. *)
Theorem C8_fresh_timestamps (r1 r2 : request) (between : list request)
    (h : platform) (s : state) :
  raw_command r1 = bytes_lit "GET" ->
  raw_command r2 = bytes_lit "GET" ->
  let t1 := wall h (S (reads s)) in
  let t2 := wall h (S (S (S (reads s)) + 2 * length between)) in
  valid_datetime t1 = true ->
  valid_datetime t2 = true ->
  exists a1 s1 answers s1' a2 s2,
    finish_request SimpleHandler r1 h s = (Ok a1, s1) /\
    serve_forever SimpleHandler between h s1 = (Ok answers, s1') /\
    finish_request SimpleHandler r2 h s1' = (Ok a2, s2) /\
    body_timestamp (body a1) = map octet (strftime t1 timestamp_format) /\
    body_timestamp (body a2) = map octet (strftime t2 timestamp_format) /\
    (body_timestamp (body a1) = body_timestamp (body a2)
     <-> same_second t1 t2).
Proof.
  intros G1 G2 t1 t2 V1 V2.
  rewrite (finish_GET r1 h s G1). cbn zeta. fold t1.
  eexists; eexists.
  match goal with
  | |- exists answers s1' a2 s2, (_, ?st) = _ /\ _ =>
      destruct (serve_forever_frame between h st)
        as (answers & s1' & E & _ & Hreads & _ & _)
  end.
  cbn [reads] in Hreads.
  exists answers, s1'.
  rewrite (finish_GET r2 h s1' G2). cbn zeta.
  rewrite Hreads. fold t2.
  eexists; eexists.
  split; [reflexivity|]. split; [exact E|]. split; [reflexivity|].
  cbn [body page_response].
  rewrite (body_timestamp_render _ t1 (handler_path_encodable r1) V1).
  rewrite (body_timestamp_render _ t2 (handler_path_encodable r2) V2).
  split; [reflexivity|]. split; [reflexivity|].
  split.
  - intros H. apply stamp_injective; [exact V1|exact V2|].
    apply map_octet_injective; [apply stamp_ascii|apply stamp_ascii|exact H].
  - intros H. now rewrite (stamp_same_second t1 t2 H).
Qed.

Lemma C8_witness :
  raw_command (sample_request "GET" "/a") = bytes_lit "GET" /\
  raw_command (sample_request "GET" "/b") = bytes_lit "GET" /\
  valid_datetime (wall sample_host 1) = true /\
  valid_datetime (wall sample_host 5) = true /\
  exists a1 s1 answers s1' a2 s2,
    finish_request SimpleHandler (sample_request "GET" "/a") sample_host boot
      = (Ok a1, s1) /\
    serve_forever SimpleHandler [sample_request "POST" "/"] sample_host s1
      = (Ok answers, s1') /\
    finish_request SimpleHandler (sample_request "GET" "/b") sample_host s1'
      = (Ok a2, s2) /\
    body_timestamp (body a1)
      = map octet (strftime (wall sample_host 1) timestamp_format) /\
    body_timestamp (body a2)
      = map octet (strftime (wall sample_host 5) timestamp_format) /\
    (body_timestamp (body a1) = body_timestamp (body a2)
     <-> same_second (wall sample_host 1) (wall sample_host 5)).
Proof.
  split; [reflexivity|]. split; [reflexivity|].
  split; [reflexivity|]. split; [reflexivity|].
  exact (C8_fresh_timestamps (sample_request "GET" "/a")
           (sample_request "GET" "/b") [sample_request "POST" "/"]
           sample_host boot eq_refl eq_refl eq_refl eq_refl).
Defined.

(** C9. Two GET requests with the same path, rendered at the same clock
    reading, get the same response, status, headers and body, whatever
    their headers, bodies and clients and whatever was served before. *)
Theorem C9_response_depends_on_path_and_clock (r1 r2 : request)
    (h1 h2 : platform) (s1 s2 : state) :
  raw_command r1 = bytes_lit "GET" ->
  raw_command r2 = bytes_lit "GET" ->
  path (handler_of r1) = path (handler_of r2) ->
  wall h1 (S (reads s1)) = wall h2 (S (reads s2)) ->
  exists a s1' s2',
    finish_request SimpleHandler r1 h1 s1 = (Ok a, s1') /\
    finish_request SimpleHandler r2 h2 s2 = (Ok a, s2') /\
    status a = Some 200 /\
    sent_headers a = [(lit "Content-type", lit "text/html")] /\
    body a = utf8 (render (path (handler_of r1))
                          (strftime (wall h1 (S (reads s1)))
                                    timestamp_format)).
Proof.
  intros G1 G2 P W.
  rewrite (finish_GET r1 h1 s1 G1), (finish_GET r2 h2 s2 G2). cbn zeta.
  rewrite <- P, <- W.
  eexists; eexists; eexists.
  split; [reflexivity|]. split; [reflexivity|].
  split; [reflexivity|]. split; reflexivity.
Qed.

Lemma C9_witness :
  raw_command (sample_request "GET" "/p") = bytes_lit "GET" /\
  raw_command
    {| peer := (lit "10.0.0.7", 1234);
       raw_requestline := bytes_lit "GET /p HTTP/1.0";
       raw_command := bytes_lit "GET";
       raw_path := bytes_lit "/p";
       raw_version := bytes_lit "HTTP/1.0";
       raw_headers := [(bytes_lit "Cookie", bytes_lit "id=1")];
       raw_body := bytes_lit "payload" |} = bytes_lit "GET" /\
  exists a s1' s2',
    finish_request SimpleHandler (sample_request "GET" "/p") frozen_host boot
      = (Ok a, s1') /\
    finish_request SimpleHandler
      {| peer := (lit "10.0.0.7", 1234);
         raw_requestline := bytes_lit "GET /p HTTP/1.0";
         raw_command := bytes_lit "GET";
         raw_path := bytes_lit "/p";
         raw_version := bytes_lit "HTTP/1.0";
         raw_headers := [(bytes_lit "Cookie", bytes_lit "id=1")];
         raw_body := bytes_lit "payload" |}
      frozen_host (started 8080) = (Ok a, s2') /\
    status a = Some 200 /\
    sent_headers a = [(lit "Content-type", lit "text/html")] /\
    body a = utf8 (render (lit "/p")
                          (strftime (wall frozen_host 1) timestamp_format)).
Proof.
  split; [reflexivity|]. split; [reflexivity|].
  exact (C9_response_depends_on_path_and_clock
           (sample_request "GET" "/p")
           {| peer := (lit "10.0.0.7", 1234);
              raw_requestline := bytes_lit "GET /p HTTP/1.0";
              raw_command := bytes_lit "GET";
              raw_path := bytes_lit "/p";
              raw_version := bytes_lit "HTTP/1.0";
              raw_headers := [(bytes_lit "Cookie", bytes_lit "id=1")];
              raw_body := bytes_lit "payload" |}
           frozen_host frozen_host boot (started 8080)
           eq_refl eq_refl eq_refl eq_refl).
Defined.

(** C10, as stated, fails: with a lone surrogate in the path the encoder
    raises, after the status and the header were handed over, and no body
    is written. *)
Lemma C10_counterexample :
  exists s',
    do_GET surrogate_handler sample_host boot
      = (Raise UnicodeEncodeError, s') /\
    status (reply s') = Some 200 /\
    body (reply s') = [].
Proof.
  eexists. rewrite do_GET_run. cbn zeta.
  replace (encode (render (path surrogate_handler)
                          (stamp (wall sample_host (S (reads boot))))))
    with (@None (list byte)) by (vm_compute; reflexivity).
  split; [reflexivity|]. split; reflexivity.
Qed.

(** C10, amended. The GET handler is total on every path UTF-8 can encode,
    that is, one without surrogate code points: the empty path, paths with
    non-ASCII characters, every path a request line decodes to.  It sends
    status 200 and writes the encoded page; it has no other outcome on such
    a path. *)
Theorem C10_total_on_encodable_paths (self : handler) (h : platform)
    (s : state) :
  encodable (path self) = true ->
  exists s' data,
    do_GET self h s = (Ok tt, s') /\
    status (reply s') = Some 200 /\
    encode (render (path self)
                   (strftime (wall h (S (reads s))) timestamp_format))
      = Some data /\
    body (reply s') = body (reply s) ++ data.
Proof.
  intros Hp. rewrite do_GET_run. cbn zeta.
  assert (E : encodable (render (path self) (stamp (wall h (S (reads s)))))
              = true) by now rewrite render_encodable.
  rewrite (encode_utf8 _ E).
  eexists; eexists.
  split; [reflexivity|]. split; [reflexivity|]. split; reflexivity.
Qed.

Lemma C10_witness :
  encodable [] = true /\
  exists s' data,
    do_GET {| client_address := (lit "127.0.0.1", 50000);
              command := lit "GET"; path := [];
              requestline := lit "GET  HTTP/1.1";
              request_version := lit "HTTP/1.1";
              headers := []; rfile := [] |} sample_host boot = (Ok tt, s') /\
    status (reply s') = Some 200 /\
    encode (render [] (strftime (wall sample_host 1) timestamp_format))
      = Some data /\
    body (reply s') = body (reply boot) ++ data.
Proof.
  split; [reflexivity|].
  exact (C10_total_on_encodable_paths
           {| client_address := (lit "127.0.0.1", 50000);
              command := lit "GET"; path := [];
              requestline := lit "GET  HTTP/1.1";
              request_version := lit "HTTP/1.1";
              headers := []; rfile := [] |} sample_host boot eq_refl).
Defined.

(* ================================================================== *)
(** * Further properties *)

(** ** Request paths and their bytes in the page *)

Lemma octet_to_N (b : byte) : octet (Byte.to_N b) = b.
Proof. destruct b; reflexivity. Qed.

Lemma utf8_latin1_cons (b : byte) (raw : list byte) :
  utf8 (latin1_decode (b :: raw))
  = utf8 [Byte.to_N b] ++ utf8 (latin1_decode raw).
Proof.
  change (latin1_decode (b :: raw))
    with ([Byte.to_N b] ++ latin1_decode raw).
  apply utf8_app.
  - exact (latin1_encodable [b]).
  - apply latin1_encodable.
Qed.

Lemma utf8_byte_length (b : byte) :
  length (utf8 [Byte.to_N b])
  = if 128 <=? Byte.to_N b then 2%nat else 1%nat.
Proof. destruct b; reflexivity. Qed.

Lemma utf8_byte_ascii (b : byte) :
  (Byte.to_N b <? 128) = true -> utf8 [Byte.to_N b] = [b].
Proof. destruct b; intros H; try reflexivity; discriminate H. Qed.

Lemma latin1_of_utf8_step (b : byte) (rest : list byte) :
  latin1_of_utf8 (utf8 [Byte.to_N b] ++ rest) = b :: latin1_of_utf8 rest.
Proof. destruct b; reflexivity. Qed.

(** The path bytes can be read back from their encoding. *)
Lemma latin1_of_utf8_latin1 (raw : list byte) :
  latin1_of_utf8 (utf8 (latin1_decode raw)) = raw.
Proof.
  induction raw as [|b raw IH]; [reflexivity|].
  now rewrite utf8_latin1_cons, latin1_of_utf8_step, IH.
Qed.

Lemma utf8_latin1_injective (a b : list byte) :
  utf8 (latin1_decode a) = utf8 (latin1_decode b) -> a = b.
Proof.
  intros E. rewrite <- (latin1_of_utf8_latin1 a), <- (latin1_of_utf8_latin1 b).
  now rewrite E.
Qed.

Lemma utf8_latin1_ascii (raw : list byte) :
  ascii_bytes raw = true -> utf8 (latin1_decode raw) = raw.
Proof.
  induction raw as [|b raw IH]; [reflexivity|].
  cbn [ascii_bytes forallb]. intros H. apply andb_prop in H as [Hb Hr].
  rewrite utf8_latin1_cons, (utf8_byte_ascii b Hb), (IH Hr). reflexivity.
Qed.

Lemma utf8_latin1_length (raw : list byte) :
  length (utf8 (latin1_decode raw))
  = (length raw + length (high_bytes raw))%nat.
Proof.
  induction raw as [|b raw IH]; [reflexivity|].
  rewrite utf8_latin1_cons, length_app, utf8_byte_length, IH.
  cbn [high_bytes filter length].
  destruct (128 <=? Byte.to_N b); cbn [length]; unfold high_bytes; lia.
Qed.

Lemma high_bytes_length (raw : list byte) :
  (length (high_bytes raw) <= length raw)%nat.
Proof. apply filter_length_le. Qed.

Lemma latin1_text_decode (s : str) :
  latin1_text s = true -> latin1_decode (map octet s) = s.
Proof.
  induction s as [|c s IH]; [reflexivity|].
  cbn [latin1_text forallb]. intros H. apply andb_prop in H as [Hc Hs].
  apply N.ltb_lt in Hc.
  cbn [map latin1_decode]. f_equal; [now apply to_N_octet|].
  now apply IH.
Qed.

(** On text a request line can decode to, the encoder loses nothing. *)
Lemma utf8_latin1_text_injective (a b : str) :
  latin1_text a = true -> latin1_text b = true -> utf8 a = utf8 b -> a = b.
Proof.
  intros Ha Hb E.
  rewrite <- (latin1_text_decode a Ha), <- (latin1_text_decode b Hb) in E.
  apply utf8_latin1_injective in E.
  rewrite <- (latin1_text_decode a Ha), <- (latin1_text_decode b Hb).
  now rewrite E.
Qed.

Lemma high_bytes_octet (s : str) :
  latin1_text s = true ->
  length (high_bytes (map octet s)) = length (high_chars s).
Proof.
  induction s as [|c s IH]; [reflexivity|].
  cbn [latin1_text forallb]. intros H. apply andb_prop in H as [Hc Hs].
  apply N.ltb_lt in Hc.
  cbn [map high_bytes high_chars filter]. rewrite (to_N_octet c Hc).
  destruct (128 <=? c); cbn [length]; [f_equal|]; now apply IH.
Qed.

Lemma utf8_latin1_text_length (s : str) :
  latin1_text s = true ->
  length (utf8 s) = (length s + length (high_chars s))%nat.
Proof.
  intros H. rewrite <- (latin1_text_decode s H) at 1.
  now rewrite utf8_latin1_length, length_map, (high_bytes_octet s H).
Qed.

Lemma high_chars_length (s : str) :
  (length (high_chars s) <= length s)%nat.
Proof. apply filter_length_le. Qed.

Lemma app_inv_length {A} (a b c d : list A) :
  a ++ b = c ++ d -> length b = length d -> a = c /\ b = d.
Proof.
  revert c. induction a as [|x a IH]; intros [|y c] E L; cbn [app] in E.
  - split; [reflexivity | exact E].
  - exfalso. apply (f_equal (@length A)) in E.
    cbn [length] in E. rewrite length_app in E. lia.
  - exfalso. apply (f_equal (@length A)) in E.
    cbn [length] in E. rewrite length_app in E. lia.
  - injection E as -> E. destruct (IH c E L) as [-> ->].
    split; reflexivity.
Qed.

(** X1. When the format cannot be interpolated with the arguments (too few
    or too many of them, a string for [%d], a lone [%]), [log_message]
    raises that error and prints nothing; it has read the clock, and the
    response and the server are as before. *)
Theorem X1_log_message_error_prints_nothing (self : handler) (format : str)
    (args : list value) (e : exn) (h : platform) (s : state) :
  percent format args = Raise e ->
  python_error e = true ->
  exists s',
    log_message self format args h s = (Raise e, s') /\
    stdout s' = stdout s /\
    reply s' = reply s /\
    httpd s' = httpd s /\
    reads s' = S (reads s).
Proof.
  intros E _. rewrite log_message_run, E.
  eexists. repeat split.
Qed.

Lemma X1_witness :
  percent (lit "%s %s") [VStr (lit "only one")]
    = Raise (TypeError "not enough arguments for format string") /\
  python_error (TypeError "not enough arguments for format string") = true /\
  exists s',
    log_message surrogate_handler (lit "%s %s") [VStr (lit "only one")]
                sample_host boot
      = (Raise (TypeError "not enough arguments for format string"), s') /\
    stdout s' = stdout boot /\
    reply s' = reply boot /\
    httpd s' = httpd boot /\
    reads s' = S (reads boot).
Proof.
  split; [reflexivity|]. split; [reflexivity|].
  exact (X1_log_message_error_prints_nothing surrogate_handler (lit "%s %s")
           [VStr (lit "only one")] _ sample_host boot eq_refl eq_refl).
Defined.

(** X2. When the path cannot be encoded, [do_GET] raises
    [UnicodeEncodeError] only after the request was logged with code 200,
    the status was set, the header was handed over and the headers were
    ended; no byte of a body is written. *)
Theorem X2_unencodable_path_fails_late (self : handler) (h : platform)
    (s : state) :
  encodable (path self) = false ->
  exists s',
    do_GET self h s = (Raise UnicodeEncodeError, s') /\
    stdout s' =
      stdout s ++ [log_line (wall h (reads s))
                            (request_summary (requestline self) 200)] /\
    status (reply s') = Some 200 /\
    sent_headers (reply s')
      = sent_headers (reply s) ++ [(lit "Content-type", lit "text/html")] /\
    headers_ended (reply s') = true /\
    body (reply s') = body (reply s).
Proof.
  intros Hp. rewrite do_GET_run. cbn zeta.
  assert (E : encodable (render (path self) (stamp (wall h (S (reads s)))))
              = false).
  { unfold render. rewrite !encodable_app, Hp. now rewrite andb_false_r. }
  apply encode_none in E. rewrite E.
  eexists. repeat split.
Qed.

Lemma X2_witness :
  encodable (path surrogate_handler) = false /\
  exists s',
    do_GET surrogate_handler sample_host boot
      = (Raise UnicodeEncodeError, s') /\
    stdout s' =
      stdout boot ++ [log_line (wall sample_host (reads boot))
                        (request_summary (requestline surrogate_handler) 200)] /\
    status (reply s') = Some 200 /\
    sent_headers (reply s')
      = sent_headers (reply boot) ++ [(lit "Content-type", lit "text/html")] /\
    headers_ended (reply s') = true /\
    body (reply s') = body (reply boot).
Proof.
  split; [reflexivity|].
  exact (X2_unencodable_path_fails_late surrogate_handler sample_host boot
                                        eq_refl).
Defined.

(** X3. No request the runtime delivers makes the handler raise: a request
    line is decoded as ISO-8859-1, so its path can always be encoded, and
    [do_GET] returns; a request with any other method is answered by the
    runtime's error reply, which returns as well. *)
Theorem X3_delivered_requests_never_raise (r : request) (h : platform)
    (s : state) :
  (exists s', do_GET (handler_of r) h s = (Ok tt, s')) /\
  (exists s', handle_one_request SimpleHandler (handler_of r) h s
              = (Ok tt, s')).
Proof.
  assert (G : exists s', do_GET (handler_of r) h s = (Ok tt, s')).
  { rewrite do_GET_run. cbn zeta.
    assert (Hp : encodable (render (path (handler_of r))
                                   (stamp (wall h (S (reads s))))) = true)
      by (rewrite render_encodable; apply handler_path_encodable).
    rewrite (encode_utf8 _ Hp). eexists. reflexivity. }
  split; [exact G|].
  destruct (str_eqb (command (handler_of r)) (lit "GET")) eqn:E.
  - apply str_eqb_eq in E. rewrite (handle_GET _ _ _ E). exact G.
  - destruct (unsupported_run (handler_of r) h s E) as (a & -> & _).
    eexists. reflexivity.
Qed.

(** X4. For a GET request whose path is ASCII and does not begin with two
    slashes, the bytes of the request path stand in the body exactly as
    they came in, between [<p><strong>Path:</strong> ] and [</p>].  (A
    path that begins with two slashes reaches the handler with a single
    leading slash, see [handler_of_collapses_slashes].) *)
Theorem X4_ascii_path_echoed (r : request) (h : platform) (s : state) :
  raw_command r = bytes_lit "GET" ->
  ascii_bytes (raw_path r) = true ->
  starts_with (bytes_lit "//") (raw_path r) = false ->
  exists a s',
    finish_request SimpleHandler r h s = (Ok a, s') /\
    occurs_in (bytes_lit "<p><strong>Path:</strong> " ++ raw_path r
               ++ bytes_lit "</p>") (body a).
Proof.
  intros G A D. rewrite (finish_GET r h s G). cbn zeta.
  eexists; eexists. split; [reflexivity|].
  cbn [body page_response]. rewrite (handler_path_plain r D).
  rewrite <- (utf8_latin1_ascii (raw_path r) A) at 1.
  apply body_shows_path, latin1_encodable.
Qed.

Lemma X4_witness :
  raw_command (sample_request "GET" "/a?b=<i>") = bytes_lit "GET" /\
  ascii_bytes (raw_path (sample_request "GET" "/a?b=<i>")) = true /\
  starts_with (bytes_lit "//") (raw_path (sample_request "GET" "/a?b=<i>"))
    = false /\
  exists a s',
    finish_request SimpleHandler (sample_request "GET" "/a?b=<i>")
                   sample_host boot = (Ok a, s') /\
    occurs_in (bytes_lit "<p><strong>Path:</strong> "
               ++ raw_path (sample_request "GET" "/a?b=<i>")
               ++ bytes_lit "</p>") (body a).
Proof.
  split; [reflexivity|]. split; [reflexivity|]. split; [reflexivity|].
  exact (X4_ascii_path_echoed (sample_request "GET" "/a?b=<i>") sample_host
                              boot eq_refl eq_refl eq_refl).
Defined.

(** X5. The body of a GET response has no bound of its own: it is 1224
    bytes of template and timestamp plus one byte for every ASCII
    character of the path the handler sees and two for every other
    character; that is at most 1224 bytes plus twice the bytes of the path
    on the wire. *)
Theorem X5_body_length (r : request) (h : platform) (s : state) :
  raw_command r = bytes_lit "GET" ->
  valid_datetime (wall h (S (reads s))) = true ->
  let P := path (handler_of r) in
  exists a s',
    finish_request SimpleHandler r h s = (Ok a, s') /\
    length (body a) = (1224 + length P + length (high_chars P))%nat /\
    (length (body a) <= 1224 + 2 * length (raw_path r))%nat.
Proof.
  intros G V P. rewrite (finish_GET r h s G). cbn zeta. fold P.
  eexists; eexists. split; [reflexivity|].
  cbn [body page_response].
  rewrite (utf8_render _ _ (handler_path_encodable r)). fold P.
  rewrite !length_app, length_map, (stamp_length _ V).
  rewrite (utf8_latin1_text_length P (handler_path_latin1 r)).
  replace (length (utf8 page_head)) with 1067%nat by (vm_compute; reflexivity).
  replace (length (utf8 page_mid)) with 51%nat by (vm_compute; reflexivity).
  replace (length (utf8 page_tail)) with 87%nat by (vm_compute; reflexivity).
  pose proof (high_chars_length P) as B.
  pose proof (handler_path_length r) as L. fold P in L.
  revert B L.
  generalize (length P), (length (high_chars P)), (length (raw_path r)).
  intros n k m B L. split; lia.
Qed.

Lemma X5_witness :
  raw_command (sample_request "GET" "//abc") = bytes_lit "GET" /\
  valid_datetime (wall sample_host (S (reads boot))) = true /\
  exists a s',
    finish_request SimpleHandler (sample_request "GET" "//abc") sample_host
                   boot = (Ok a, s') /\
    length (body a)
      = (1224 + length (path (handler_of (sample_request "GET" "//abc")))
         + length (high_chars
                     (path (handler_of (sample_request "GET" "//abc")))))%nat /\
    (length (body a)
     <= 1224 + 2 * length (raw_path (sample_request "GET" "//abc")))%nat.
Proof.
  split; [reflexivity|]. split; [reflexivity|].
  exact (X5_body_length (sample_request "GET" "//abc") sample_host boot
                        eq_refl eq_refl).
Defined.

(** X6. [run_server] creates the server before it prints: when the port is
    outside 0 .. 65535 or cannot be bound, the call raises, nothing has
    been written to standard output and no request is served. *)
Theorem X6_no_output_without_socket (port : Z) (incoming : list request)
    (h : platform) :
  (port < 0)%Z \/ (65535 < port)%Z \/ port_free h port = false ->
  exists e s',
    run_server port incoming h boot = (Raise e, s') /\
    python_error e = true /\
    stdout s' = [] /\
    httpd s' = None /\
    reads s' = 0%nat.
Proof.
  intros H. unfold run_server. unfold bind at 1. unfold HTTPServer.
  cbn [snd].
  destruct ((port <? 0) || (65535 <? port))%Z eqn:R.
  - exists OverflowError, boot. repeat split.
  - destruct (port_free h port) eqn:F.
    + exfalso. apply orb_false_elim in R as [R1 R2].
      apply Z.ltb_ge in R1, R2.
      destruct H as [H|[H|H]]; [lia|lia|discriminate H].
    + exists OSError, boot. repeat split.
Qed.

Lemma X6_witness :
  ((70000 < 0)%Z \/ (65535 < 70000)%Z \/ port_free sample_host 70000 = false) /\
  exists e s',
    run_server 70000 [sample_request "GET" "/"] sample_host boot
      = (Raise e, s') /\
    python_error e = true /\
    stdout s' = [] /\
    httpd s' = None /\
    reads s' = 0%nat.
Proof.
  split; [right; left; reflexivity|].
  exact (X6_no_output_without_socket 70000 [sample_request "GET" "/"]
           sample_host (or_intror (or_introl eq_refl))).
Defined.



(** X9. For valid clock readings, two GET responses have the same body
    exactly when the paths the handler was given are the same text and the
    two pages were rendered in the same clock second: the body determines
    both. *)
Theorem X9_bodies_equal_iff (r1 r2 : request) (h1 h2 : platform)
    (s1 s2 : state) :
  raw_command r1 = bytes_lit "GET" ->
  raw_command r2 = bytes_lit "GET" ->
  let t1 := wall h1 (S (reads s1)) in
  let t2 := wall h2 (S (reads s2)) in
  valid_datetime t1 = true ->
  valid_datetime t2 = true ->
  exists a1 s1' a2 s2',
    finish_request SimpleHandler r1 h1 s1 = (Ok a1, s1') /\
    finish_request SimpleHandler r2 h2 s2 = (Ok a2, s2') /\
    (body a1 = body a2 <->
     path (handler_of r1) = path (handler_of r2) /\ same_second t1 t2).
Proof.
  intros G1 G2 t1 t2 V1 V2.
  rewrite (finish_GET r1 h1 s1 G1), (finish_GET r2 h2 s2 G2). cbn zeta.
  fold t1 t2.
  eexists; eexists; eexists; eexists.
  split; [reflexivity|]. split; [reflexivity|].
  cbn [body page_response].
  rewrite (utf8_render _ t1 (handler_path_encodable r1)).
  rewrite (utf8_render _ t2 (handler_path_encodable r2)).
  split.
  - intros E. apply app_inv_head in E.
    apply app_inv_length in E.
    + destruct E as [Ep Er]. split.
      * apply utf8_latin1_text_injective;
          [apply handler_path_latin1|apply handler_path_latin1|exact Ep].
      * apply app_inv_head in Er. apply app_inv_tail in Er.
        apply stamp_injective; [exact V1|exact V2|].
        apply map_octet_injective;
          [apply stamp_ascii|apply stamp_ascii|exact Er].
    + rewrite !length_app, !length_map.
      now rewrite (stamp_length _ V1), (stamp_length _ V2).
  - intros [Ep Et]. now rewrite Ep, (stamp_same_second t1 t2 Et).
Qed.

Lemma X9_witness :
  raw_command (sample_request "GET" "//a") = bytes_lit "GET" /\
  raw_command (sample_request "GET" "/a") = bytes_lit "GET" /\
  valid_datetime (wall frozen_host (S (reads boot))) = true /\
  valid_datetime (wall frozen_host (S (reads (started 8080)))) = true /\
  exists a1 s1' a2 s2',
    finish_request SimpleHandler (sample_request "GET" "//a") frozen_host boot
      = (Ok a1, s1') /\
    finish_request SimpleHandler (sample_request "GET" "/a") frozen_host
                   (started 8080) = (Ok a2, s2') /\
    (body a1 = body a2 <->
     path (handler_of (sample_request "GET" "//a"))
       = path (handler_of (sample_request "GET" "/a"))
     /\ same_second (wall frozen_host (S (reads boot)))
                    (wall frozen_host (S (reads (started 8080))))).
Proof.
  split; [reflexivity|]. split; [reflexivity|].
  split; [reflexivity|]. split; [reflexivity|].
  exact (X9_bodies_equal_iff (sample_request "GET" "//a")
           (sample_request "GET" "/a") frozen_host frozen_host boot
           (started 8080) eq_refl eq_refl eq_refl eq_refl).
Defined.

(** X10. The log line and the page of one GET request carry two readings
    of the clock, the log line's taken first: the timestamp between the
    brackets of the log line is the first reading, the page's is the
    second, and the two texts agree exactly when the two readings show the
    same clock second. *)
Theorem X10_log_and_page_readings (r : request) (h : platform) (s : state) :
  raw_command r = bytes_lit "GET" ->
  let t0 := wall h (reads s) in
  let t1 := wall h (S (reads s)) in
  valid_datetime t0 = true ->
  valid_datetime t1 = true ->
  exists a s' line,
    finish_request SimpleHandler r h s = (Ok a, s') /\
    stdout s' = stdout s ++ [line] /\
    field line 1 19 = strftime t0 timestamp_format /\
    body_timestamp (body a) = map octet (strftime t1 timestamp_format) /\
    (map octet (field line 1 19) = body_timestamp (body a)
     <-> same_second t0 t1).
Proof.
  intros G t0 t1 V0 V1. rewrite (finish_GET r h s G). cbn zeta. fold t0 t1.
  eexists; eexists; eexists.
  split; [reflexivity|]. split; [reflexivity|].
  cbn [body page_response].
  assert (F : field (log_line t0 (request_summary
                                    (requestline (handler_of r)) 200))
                    1 19 = stamp t0).
  { unfold field, log_line.
    apply (firstn_skipn_middle (lit "[") (stamp t0)); [|reflexivity].
    now apply stamp_length. }
  rewrite F.
  rewrite (body_timestamp_render _ t1 (handler_path_encodable r) V1).
  split; [reflexivity|]. split; [reflexivity|].
  split.
  - intros E. apply stamp_injective; [exact V0|exact V1|].
    apply map_octet_injective; [apply stamp_ascii|apply stamp_ascii|exact E].
  - intros E. now rewrite (stamp_same_second t0 t1 E).
Qed.

Lemma X10_witness :
  raw_command (sample_request "GET" "/") = bytes_lit "GET" /\
  valid_datetime (wall sample_host (reads boot)) = true /\
  valid_datetime (wall sample_host (S (reads boot))) = true /\
  exists a s' line,
    finish_request SimpleHandler (sample_request "GET" "/") sample_host boot
      = (Ok a, s') /\
    stdout s' = stdout boot ++ [line] /\
    field line 1 19
      = strftime (wall sample_host (reads boot)) timestamp_format /\
    body_timestamp (body a)
      = map octet (strftime (wall sample_host (S (reads boot)))
                            timestamp_format) /\
    (map octet (field line 1 19) = body_timestamp (body a)
     <-> same_second (wall sample_host (reads boot))
                     (wall sample_host (S (reads boot)))).
Proof.
  split; [reflexivity|]. split; [reflexivity|]. split; [reflexivity|].
  exact (X10_log_and_page_readings (sample_request "GET" "/") sample_host boot
                                   eq_refl eq_refl eq_refl).
Defined.

(** X11. The log line of a GET request shows the runtime's [requestline]
    attribute, the decoded line without its line end, between double
    quotes and followed by [200 -]; nothing in it is escaped or cut,
    whatever bytes the request line holds. *)
Theorem X11_log_line_shows_request_line (r : request) (h : platform)
    (s : state) :
  raw_command r = bytes_lit "GET" ->
  exists a s',
    finish_request SimpleHandler r h s = (Ok a, s') /\
    stdout s' =
      stdout s
      ++ [lit "[" ++ strftime (wall h (reads s)) timestamp_format ++ lit "] "
          ++ dq ++ requestline (handler_of r) ++ dq ++ lit " 200 -"].
Proof.
  intros G. rewrite (finish_GET r h s G). cbn zeta.
  eexists; eexists. split; [reflexivity|].
  cbn [stdout]. unfold log_line, request_summary. reflexivity.
Qed.

Lemma X11_witness :
  raw_command (sample_request "GET" "/x") = bytes_lit "GET" /\
  exists a s',
    finish_request SimpleHandler (sample_request "GET" "/x") sample_host boot
      = (Ok a, s') /\
    stdout s' =
      stdout boot
      ++ [lit "[" ++ strftime (wall sample_host (reads boot)) timestamp_format
          ++ lit "] " ++ dq
          ++ requestline (handler_of (sample_request "GET" "/x"))
          ++ dq ++ lit " 200 -"].
Proof.
  split; [reflexivity|].
  exact (X11_log_line_shows_request_line (sample_request "GET" "/x")
                                         sample_host boot eq_refl).
Defined.
